(** * animation_regression: the scraping pipeline of [src/web_scraping.py]

    A shallow embedding of the module's functions and the properties its
    specification states about them.

    Conventions of the model.
    - A Python [str] is a [string] whose characters are code points below
      256 (Latin-1), which covers every literal of the module, including the
      non-breaking space [\xa0] of its regular expressions.
    - A Python [int] is a [Z].
    - A call that can raise returns a [Result]; the exception classes are
      the constructors of [Exn].
    - A parsed page (a BeautifulSoup object) is a [Node] tree, and an element
      found in it is a zipper [Element], so that [findParent], [findNext]
      and [findNextSibling] are total functions of the element alone.
    - [requests.get], [float], [dateutil.parser.parse] and
      [CurrencyRates.convert] are collaborators outside the repository: they
      are Section variables. *)

From Stdlib Require Import String Ascii List ZArith Lia Bool Arith.
From Stdlib Require Import DecimalString DecimalZ DecimalFacts.
Import ListNotations.

Open Scope list_scope.
Open Scope string_scope.

(** ** Exceptions *)

Inductive Exn : Type :=
| AttributeError   (* attribute access on [None] *)
| ValueError       (* [int], [list.index] *)
| IndexError       (* subscript out of range *)
| ExternalError (name : string). (* raised by a collaborator *)

Inductive Result (A : Type) : Type :=
| Ok (a : A)
| Raise (e : Exn).

Arguments Ok {A} a.
Arguments Raise {A} e.

Definition bind {A B : Type} (r : Result A) (k : A -> Result B) : Result B :=
  match r with
  | Ok a => k a
  | Raise e => Raise e
  end.

Declare Scope result_scope.
Delimit Scope result_scope with result.
Notation "x <- r ;; k" := (bind r (fun x => k))
  (at level 61, r at next level, right associativity) : result_scope.

(** [obj.attr] where [obj] may be [None]. *)
Definition attr_of {A : Type} (o : option A) : Result A :=
  match o with
  | Some a => Ok a
  | None => Raise AttributeError
  end.

(** ** Python strings *)

Definition nl : ascii := "010"%char.
Definition nbsp : ascii := "160"%char.

(** [str.isspace] on one character: the Latin-1 part of Python's table. *)
Definition is_space (c : ascii) : bool :=
  let n := nat_of_ascii c in
  (((9 <=? n) && (n <=? 13)) || ((28 <=? n) && (n <=? 32))
   || (n =? 133) || (n =? 160))%nat.

Definition is_ascii_digit (c : ascii) : bool :=
  let n := nat_of_ascii c in ((48 <=? n) && (n <=? 57))%nat.

(** [str.isdigit] on one character: the decimal digits and the three
    superscript digits of Latin-1. *)
Definition is_digit_char (c : ascii) : bool :=
  let n := nat_of_ascii c in
  is_ascii_digit c || ((n =? 178) || (n =? 179) || (n =? 185))%nat.

Fixpoint forallb_str (p : ascii -> bool) (s : string) : bool :=
  match s with
  | EmptyString => true
  | String c r => p c && forallb_str p r
  end.

(** [s.isdigit()] *)
Definition isdigit (s : string) : bool :=
  match s with
  | EmptyString => false
  | _ => forallb_str is_digit_char s
  end.

Fixpoint lstrip (s : string) : string :=
  match s with
  | EmptyString => EmptyString
  | String c r => if is_space c then lstrip r else s
  end.

Fixpoint rstrip (s : string) : string :=
  match s with
  | EmptyString => EmptyString
  | String c r =>
      match rstrip r with
      | EmptyString => if is_space c then EmptyString else String c EmptyString
      | r' => String c r'
      end
  end.

(** [s.strip()] *)
Definition strip (s : string) : string := rstrip (lstrip s).

(** [s.split()]: the maximal runs of non-whitespace characters. *)
Fixpoint split_from (tok : string) (s : string) : list string :=
  match s with
  | EmptyString => match tok with EmptyString => [] | _ => [tok] end
  | String c r =>
      if is_space c
      then match tok with
           | EmptyString => split_from EmptyString r
           | _ => tok :: split_from EmptyString r
           end
      else split_from (tok ++ String c EmptyString) r
  end.

Definition split (s : string) : list string := split_from EmptyString s.

Fixpoint drop (n : nat) (s : string) : string :=
  match n, s with
  | O, _ => s
  | S k, EmptyString => EmptyString
  | S k, String _ r => drop k r
  end.

Fixpoint take (n : nat) (s : string) : string :=
  match n, s with
  | O, _ => EmptyString
  | S k, EmptyString => EmptyString
  | S k, String c r => String c (take k r)
  end.

(** [sub in s] *)
Fixpoint contains (sub s : string) : bool :=
  prefix sub s ||
  match s with
  | EmptyString => false
  | String _ r => contains sub r
  end.

(** [s.replace(old, new)]: the occurrences of [old] are found from the left
    and do not overlap; [skip] counts the characters of a found occurrence
    that are still to be passed over. *)
Fixpoint replace_from (old new : string) (skip : nat) (s : string) : string :=
  match s with
  | EmptyString =>
      match old with EmptyString => new | _ => EmptyString end
  | String c r =>
      match skip with
      | S k => replace_from old new k r
      | O =>
          if prefix old s
          then new ++
               match old with
               | EmptyString => String c (replace_from old new 0 r)
               | _ => replace_from old new (String.length old - 1) r
               end
          else String c (replace_from old new 0 r)
      end
  end.

Definition replace (old new s : string) : string := replace_from old new 0 s.

(** [str(n)] for an [int]. *)
Definition str (n : Z) : string := NilZero.string_of_int (Z.to_int n).

(** The digits of [int(s)]: decimal digits, single underscores allowed
    between two digits. [acc] is the value read so far, [after_digit] tells
    whether the previous character was a digit. *)
Fixpoint int_digits (acc : Z) (after_digit : bool) (s : string) : option Z :=
  match s with
  | EmptyString => if after_digit then Some acc else None
  | String c r =>
      if is_ascii_digit c
      then int_digits (10 * acc + Z.of_nat (nat_of_ascii c - 48)) true r
      else if (c =? "_")%char && after_digit
           then match r with
                | EmptyString => None
                | String d _ => if is_ascii_digit d then int_digits acc false r else None
                end
           else None
  end.

(** The blanks [int] passes over at both ends of its text: tab to carriage
    return and the space, and the two blanks beyond ASCII, which it takes
    for spaces. The separators U+001C to U+001F, blanks for [str.strip],
    are none for [int]. *)
Definition is_int_space (c : ascii) : bool :=
  let n := nat_of_ascii c in
  (((9 <=? n) && (n <=? 13)) || (n =? 32) || (n =? 133) || (n =? 160))%nat.

Fixpoint int_lstrip (s : string) : string :=
  match s with
  | EmptyString => EmptyString
  | String c r => if is_int_space c then int_lstrip r else s
  end.

Fixpoint int_rstrip (s : string) : string :=
  match s with
  | EmptyString => EmptyString
  | String c r =>
      match int_rstrip r with
      | EmptyString => if is_int_space c then EmptyString else String c EmptyString
      | r' => String c r'
      end
  end.

Definition int_strip (s : string) : string := int_rstrip (int_lstrip s).

(** [int(s)]: the blanks around the number are ignored, one sign is
    allowed. *)
Definition int (s : string) : Result Z :=
  let body := int_strip s in
  let parsed :=
    match body with
    | String "-"%char r => option_map Z.opp (int_digits 0 false r)
    | String "+"%char r => int_digits 0 false r
    | _ => int_digits 0 false body
    end in
  match parsed with
  | Some n => Ok n
  | None => Raise ValueError
  end.

(** [l[i]] with Python's negative subscripts. *)
Definition subscript {A : Type} (l : list A) (i : Z) : Result A :=
  let n := Z.of_nat (List.length l) in
  let j := if (i <? 0)%Z then (n + i)%Z else i in
  if ((0 <=? j) && (j <? n))%Z
  then match nth_error l (Z.to_nat j) with
       | Some a => Ok a
       | None => Raise IndexError
       end
  else Raise IndexError.

(** [l.index(x)] *)
Fixpoint index_of (x : string) (l : list string) : Result Z :=
  match l with
  | [] => Raise ValueError
  | y :: r =>
      if (y =? x)%string then Ok 0%Z
      else match index_of x r with
           | Ok i => Ok (i + 1)%Z
           | Raise e => Raise e
           end
  end.

(** [range(n)] *)
Definition range (n : Z) : list Z := map Z.of_nat (seq 0 (Z.to_nat n)).

(** [re.sub(c + '.+', '', s)] for a single character [c]: [.] is any
    character but the newline, [+] is greedy. [dropping] is true inside a
    match. *)
Fixpoint re_sub_dotplus (c : ascii) (dropping : bool) (s : string) : string :=
  match s with
  | EmptyString => EmptyString
  | String x r =>
      if dropping && negb (x =? nl)%char
      then re_sub_dotplus c true r
      else if (x =? c)%char &&
              match r with
              | EmptyString => false
              | String y _ => negb (y =? nl)%char
              end
           then re_sub_dotplus c true r
           else String x (re_sub_dotplus c false r)
  end.

(** ** Parsed pages

    The tree BeautifulSoup builds from a page: strings and tags. The object
    returned by [BeautifulSoup(...)] is itself a tag, named [[document]],
    without a parent. *)

#[warnings="-register-all"]
Inductive Node : Type :=
| NavigableString (s : string)
| Tag (name : string) (attrs : list (string * string)) (contents : list Node).

Definition BeautifulSoup (contents : list Node) : Node :=
  Tag "[document]" [] contents.

(** One step from a node up to its parent: the parent's name and attributes
    and the siblings to the left (nearest first) and to the right. *)
Record Frame : Type := mkFrame {
  f_name : string;
  f_attrs : list (string * string);
  f_left : list Node;
  f_right : list Node
}.

(** An element as the program holds it: a node together with the way up. *)
Record Element : Type := mkElement {
  node : Node;
  ctx : list Frame
}.

Section NodeInduction.
Variable P : Node -> Prop.
Hypothesis P_string : forall s, P (NavigableString s).
Hypothesis P_tag : forall nm ats cs, Forall P cs -> P (Tag nm ats cs).

Fixpoint Node_ind' (n : Node) : P n :=
  match n with
  | NavigableString s => P_string s
  | Tag nm ats cs =>
      P_tag nm ats cs
        ((fix all (l : list Node) : Forall P l :=
            match l with
            | [] => Forall_nil P
            | c :: r => Forall_cons c (Node_ind' c) (all r)
            end) cs)
  end.
End NodeInduction.

(** [element.text]: every string below the element, in document order. *)
Fixpoint text (n : Node) : string :=
  match n with
  | NavigableString s => s
  | Tag _ _ cs => String.concat "" (map text cs)
  end.

(** A node and everything below it, in document order. *)
Fixpoint flatten (n : Node) : list Node :=
  n :: match n with
       | NavigableString _ => []
       | Tag _ _ cs => flat_map flatten cs
       end.

Section Children.
Variable walk : list Frame -> Node -> list Element.
Variables (nm : string) (ats : list (string * string)) (cx : list Frame).

Fixpoint walk_children (left right : list Node) : list Element :=
  match right with
  | [] => []
  | c :: r =>
      (walk (mkFrame nm ats left r :: cx) c ++ walk_children (c :: left) r)%list
  end.
End Children.

(** The element at a node and the elements below it, in document order. *)
Fixpoint walk (cx : list Frame) (n : Node) : list Element :=
  mkElement n cx ::
  match n with
  | NavigableString _ => []
  | Tag nm ats cs => walk_children walk nm ats cx [] cs
  end.

(** What [soup.find] and [soup.find_all] search: everything below [soup]. *)
Definition descendants (soup : Node) : list Element := tl (walk [] soup).

Definition is_tag (n : Node) : bool :=
  match n with Tag _ _ _ => true | NavigableString _ => false end.

(** [name] as the first argument of [find]. *)
Definition named (nm : string) (n : Node) : bool :=
  match n with Tag m _ _ => (m =? nm) | NavigableString _ => false end.

Fixpoint get_attr (key : string) (ats : list (string * string)) : option string :=
  match ats with
  | [] => None
  | (k, v) :: r => if (k =? key) then Some v else get_attr key r
  end.

(** [key=value] as a keyword argument of [find]. *)
Definition with_attr (key value : string) (n : Node) : bool :=
  match n with
  | Tag _ ats _ =>
      match get_attr key ats with
      | Some v => (v =? value)
      | None => false
      end
  | NavigableString _ => false
  end.

(** [class_=value]: the parser keeps [class] as the list of its words; one
    of them has to match, or all of them joined by single spaces. *)
Definition class_ (value : string) (n : Node) : bool :=
  match n with
  | Tag _ ats _ =>
      match get_attr "class" ats with
      | Some v =>
          existsb (String.eqb value) (split v) ||
          (String.concat " " (split v) =? value)
      | None => false
      end
  | NavigableString _ => false
  end.

(** [text=value]: a string of the page equal to [value]. *)
Definition with_text (value : string) (n : Node) : bool :=
  match n with
  | NavigableString s => (s =? value)
  | Tag _ _ _ => false
  end.

Definition find_all (soup : Node) (p : Node -> bool) : list Element :=
  filter (fun e => p (node e)) (descendants soup).

Definition find (soup : Node) (p : Node -> bool) : option Element :=
  List.find (fun e => p (node e)) (descendants soup).

(** [value in element]: [value] is one of the element's own strings. *)
Definition in_contents (value : string) (e : Element) : bool :=
  match node e with
  | Tag _ _ cs => existsb (with_text value) cs
  | NavigableString _ => false
  end.

Definition findParent (e : Element) : option Element :=
  match ctx e with
  | [] => None
  | fr :: up =>
      Some (mkElement
              (Tag (f_name fr) (f_attrs fr) (rev (f_left fr) ++ node e :: f_right fr)%list)
              up)
  end.

(** What follows an element in document order: what is below it, then the
    right siblings of the element and of each of its ancestors. *)
Definition next_elements (e : Element) : list Node :=
  (tl (flatten (node e)) ++ flat_map (fun fr => flat_map flatten (f_right fr)) (ctx e))%list.

(** [element.findNext()]: the next tag in document order. *)
Definition findNext (e : Element) : option Node :=
  List.find is_tag (next_elements e).

(** [element.findNextSibling()]: the next tag with the same parent. *)
Definition findNextSibling (e : Element) : option Node :=
  match ctx e with
  | [] => None
  | fr :: _ => List.find is_tag (f_right fr)
  end.

(** ** The module's constants *)

Definition JAPAN_BASE_URL : string :=
  "https://www.imdb.com/search/title/?title_type=feature&release_date=," ++
  "2020-07-01&genres=animation&countries=jp&sort=release_date,desc&count=" ++
  "100&view=simple".

Definition JAPAN_NEXT_URL : string :=
  "https://www.imdb.com/search/title/?title_type=feature&release_date=," ++
  "2020-07-01&genres=animation&countries=jp&view=simple&sort=release_date," ++
  "desc&count=100&start=101&ref_=adv_nxt".

Definition AMERICAN_BASE_URL : string :=
  "https://www.imdb.com/search/title/?title_type=feature&release_date=," ++
  "2020-07-01&genres=animation&countries=us&sort=release_date,desc&count=" ++
  "100&view=simple".

Definition AMERICAN_NEXT_URL : string :=
  "https://www.imdb.com/search/title/?title_type=feature&release_date=," ++
  "2020-07-01&genres=animation&countries=us&view=simple&sort=release_date," ++
  "desc&count=100&start=101&ref_=adv_nxt".

(** ** Value clean-up *)

Definition remove_commas (string : String.string) : String.string :=
  replace "," "" string.

(** [re.sub('\\xa0.+', '', string)] *)
Definition clean_title (string : String.string) : String.string :=
  re_sub_dotplus nbsp false string.

(** The pattern of the last line is [\n.+]. *)
Definition clean_budget (string : String.string) : String.string :=
  let string := replace "Budget:" "" string in
  let string := remove_commas string in
  re_sub_dotplus nl false string.

(** The patterns [\n ] and [\xa0\|] match the two characters they name, so
    [re.sub] with them is [replace]. *)
Definition clean_genres (string : String.string) : String.string :=
  let string := replace "Genres:" "" string in
  let string := replace (String nl " ") "" string in
  replace (String nbsp "|") ", " string.

Definition dollars_to_int (dollars_string : string) : Result Z :=
  let dollars_string := replace "$" "" dollars_string in
  int dollars_string.

(** [datetime(year, month, day)] and what [dateutil] returns. *)
Record datetime : Type := mk_datetime {
  year : Z; month : Z; day : Z;
  hour : Z; minute : Z; second : Z
}.

Definition datetime_ymd (y m d : Z) : datetime := mk_datetime y m d 0 0 0.

(** The first [string] of the loop
    [for string in tokens: if string.isdigit(): return int(string)];
    [None] when the loop ends without returning. *)
Definition first_isdigit (tokens : list string) : option string :=
  List.find isdigit tokens.

(** ** The extractors *)

Section Scraper.

(** What [float] returns. *)
Variable pyfloat : Type.
(** [float(s)] *)
Variable float : string -> Result pyfloat.
(** [dateutil.parser.parse(datestring)] *)
Variable dateutil_parse : string -> Result datetime.
(** [CurrencyRates().convert(base, dest, amount, date)] *)
Variable convert : string -> string -> Z -> datetime -> Result pyfloat.
(** [BeautifulSoup(requests.get(url).text, 'html5lib')] *)
Variable page : string -> Result Node.

(** The values of a movie's dict. *)
Inductive Value : Type :=
| VNone
| VStr (s : string)
| VInt (n : Z)
| VFloat (f : pyfloat)
| VDate (d : datetime).

Definition to_datetime (datestring : string) : Result datetime :=
  dateutil_parse datestring.

Definition fx_to_dollars_int (budget : string) : Result pyfloat :=
  let jul_10_2020 := datetime_ymd 2020 7 10 in
  (amount <- int (drop 3 budget) ;;
   convert (take 3 budget) "USD" amount jul_10_2020)%result.

Definition get_title (soup : Node) : Result Value :=
  match find soup (named "h1") with
  | Some h1 =>
      let raw_text := strip (text (node h1)) in
      Ok (VStr (clean_title raw_text))
  | None => Ok VNone
  end.

Fixpoint get_country_loop (elements : list Element) : Result Value :=
  match elements with
  | [] => Ok VNone
  | element :: rest =>
      if in_contents "Country:" element
      then (parent <- attr_of (findParent element) ;;
            let raw_text := strip (text (node parent)) in
            if contains "Japan" raw_text && contains "USA" raw_text
            then Ok (VStr "Japan, USA")
            else if contains "Japan" raw_text then Ok (VStr "Japan")
            else if contains "USA" raw_text then Ok (VStr "USA")
            else get_country_loop rest)%result
      else get_country_loop rest
  end.

Definition get_country (soup : Node) : Result Value :=
  get_country_loop (find_all soup (named "h4")).

Fixpoint get_runtime_loop (elements : list Element) : Result Value :=
  match elements with
  | [] => Ok VNone
  | element :: rest =>
      if in_contents "Runtime:" element
      then (next <- attr_of (findNext element) ;;
            let raw_text := text next in
            first <- subscript (split raw_text) 0 ;;
            runtime <- int first ;;
            Ok (VInt runtime))%result
      else get_runtime_loop rest
  end.

Definition get_runtime (soup : Node) : Result Value :=
  get_runtime_loop (find_all soup (named "h4")).

Definition get_budget (soup : Node) : Result Value :=
  match find soup (with_text "Budget:") with
  | Some label =>
      (parent <- attr_of (findParent label) ;;
       block <- attr_of (findParent parent) ;;
       let raw_text := strip (text (node block)) in
       let budget := clean_budget raw_text in
       if contains "$" budget
       then (dollars <- dollars_to_int budget ;; Ok (VInt dollars))
       else (dollars <- fx_to_dollars_int budget ;; Ok (VFloat dollars)))%result
  | None => Ok VNone
  end.

Fixpoint get_global_gross_loop (elements : list Element) : Result Value :=
  match elements with
  | [] => Ok VNone
  | element :: rest =>
      if in_contents "Cumulative Worldwide Gross:" element
      then (parent <- attr_of (findParent element) ;;
            let raw_text := strip (text (node parent)) in
            let raw_text := replace "Cumulative Worldwide Gross: " "" raw_text in
            let raw_text := remove_commas raw_text in
            dollars <- dollars_to_int raw_text ;;
            Ok (VInt dollars))%result
      else get_global_gross_loop rest
  end.

Definition get_global_gross (soup : Node) : Result Value :=
  get_global_gross_loop (find_all soup (named "h4")).

(** ['TV-14' 'TV-MA'], without a comma between the two literals, is one
    string. *)
Definition ratings : list string :=
  ["G"; "PG"; "PG-13"; "R"; "TV-Y"; "TV-Y7"; "TV-Y7 FV";
   "TV-G"; "TV-PG"; "TV-14" ++ "TV-MA"].

Definition get_mpaa_rating (soup : Node) : Result Value :=
  match find soup (fun n => named "div" n && class_ "subtext" n) with
  | Some subtext =>
      (rating <- subscript (split (strip (text (node subtext)))) 0 ;;
       if existsb (String.eqb rating) ratings
       then Ok (VStr rating)
       else Ok VNone)%result
  | None => Ok VNone
  end.

Definition get_japan_release_date (soup : Node) : Result Value :=
  match find soup (with_attr "href" "/calendar/?region=jp") with
  | Some link =>
      (next <- attr_of (findNext link) ;;
       let raw_text := text next in
       date <- to_datetime raw_text ;;
       Ok (VDate date))%result
  | None => Ok VNone
  end.

Definition get_usa_release_date (soup : Node) : Result Value :=
  match find soup (with_attr "title" "See more release dates") with
  | Some link =>
      let raw_text := replace " (USA)" "" (strip (text (node link))) in
      Ok (VStr raw_text)
  | None => Ok VNone
  end.

Definition get_genres (soup : Node) : Result Value :=
  match find soup (with_text "Genres:") with
  | Some label =>
      (parent <- attr_of (findParent label) ;;
       block <- attr_of (findParent parent) ;;
       let raw_text := strip (text (node block)) in
       Ok (VStr (clean_genres raw_text)))%result
  | None => Ok VNone
  end.

Definition get_user_rating (soup : Node) : Result Value :=
  match find soup (fun n => named "span" n && with_attr "itemprop" "ratingValue" n) with
  | Some span => (rating <- float (text (node span)) ;; Ok (VFloat rating))%result
  | None => Ok VNone
  end.

Definition get_user_rating_count (soup : Node) : Result Value :=
  match find soup (with_attr "itemprop" "ratingCount") with
  | Some span =>
      let raw_text := text (node span) in
      (count <- int (remove_commas raw_text) ;; Ok (VInt count))%result
  | None => Ok VNone
  end.

(** [for string in tokens: if string.isdigit(): return int(string)],
    followed by [otherwise] when the loop ends without returning. *)
Definition return_first_isdigit (tokens : list string) (otherwise : Result Value) : Result Value :=
  match first_isdigit tokens with
  | Some string => (wins <- int string ;; Ok (VInt wins))%result
  | None => otherwise
  end.

Definition get_oscar_wins (soup : Node) : Result Value :=
  match find soup (fun n => named "span" n && class_ "awards-blurb" n) with
  | Some blurb =>
      if contains "Won" (text (node blurb))
      then let raw_text := strip (text (node blurb)) in
           return_first_isdigit (split raw_text) (Ok VNone)
      else Ok VNone
  | None => Ok VNone
  end.

(** [own] is the second half of the function, from
    [raw_text = ...awards-blurb...text.strip()] on: it runs when the Oscar
    branch is not entered and when that branch ends without returning. *)
Definition get_non_oscar_wins (soup : Node) : Result Value :=
  match find soup (fun n => named "span" n && class_ "awards-blurb" n) with
  | Some blurb =>
      let own :=
        let raw_text := strip (text (node blurb)) in
        if contains "win" raw_text
        then return_first_isdigit (split raw_text) (Ok VNone)
        else Ok VNone in
      match contains "Oscar" (text (node blurb)), findNextSibling blurb with
      | true, Some sibling =>
          let raw_text := strip (text sibling) in
          if contains "win" raw_text
          then return_first_isdigit (split raw_text) own
          else own
      | _, _ => own
      end
  | None => Ok VNone
  end.

Definition get_metascore (soup : Node) : Result Value :=
  match find soup (fun n => named "div" n && class_ "metacriticScore" n) with
  | Some score => (n <- int (strip (text (node score))) ;; Ok (VInt n))%result
  | None => Ok VNone
  end.

(** ** Fetching pages

    A computation that fetches pages: it carries the list of the URLs
    requested so far, oldest first, and it may raise. *)

Definition Crawl (A : Type) : Type := list string -> Result A * list string.

Definition ret {A : Type} (a : A) : Crawl A := fun log => (Ok a, log).

Definition bindC {A B : Type} (m : Crawl A) (k : A -> Crawl B) : Crawl B :=
  fun log =>
    match m log with
    | (Ok a, log') => k a log'
    | (Raise e, log') => (Raise e, log')
    end.

Definition lift {A : Type} (r : Result A) : Crawl A := fun log => (r, log).

Notation "x <~ m ;; k" := (bindC m (fun x => k))
  (at level 61, m at next level, right associativity).

Definition create_soup (url : string) : Crawl Node :=
  fun log => (page url, (log ++ [url])%list).

Definition headers : list string :=
  ["title"; "country"; "runtime_minutes"; "budget"; "global_gross";
   "mpaa_rating"; "japan_release_date"; "usa_release_date"; "genres";
   "imdb_user_rating"; "imdb_user_rating_count"; "oscar_wins";
   "non_oscar_wins"; "metascore"].

(** A movie's dict, in the order of its keys. *)
Definition Dict : Type := list (string * Value).

(** [d[key]] for a key of the dict, [None] standing for a missing key
    as well. *)
Fixpoint dict_get (d : Dict) (key : string) : Value :=
  match d with
  | [] => VNone
  | (k, v) :: r => if (k =? key) then v else dict_get r key
  end.

(** [country == value] *)
Definition is_str (v : Value) (value : string) : bool :=
  match v with
  | VStr s => (s =? value)
  | _ => false
  end.

Definition get_movie_dict (link : string) : Crawl Dict :=
  let base_url := "https://www.imdb.com" in
  let url := base_url ++ link in
  soup <~ create_soup url ;;
  title <~ lift (get_title soup) ;;
  country <~ lift (get_country soup) ;;
  runtime <~ lift (get_runtime soup) ;;
  budget <~ lift (get_budget soup) ;;
  global_gross <~ lift (get_global_gross soup) ;;
  mpaa_rating <~ lift (get_mpaa_rating soup) ;;
  let release_info_url := url ++ "releaseinfo" in
  release_info_soup <~ create_soup release_info_url ;;
  dates <~ lift
    (if is_str country "Japan"
     then (japan_release_date <- get_japan_release_date release_info_soup ;;
           Ok (japan_release_date, VNone))%result
     else if is_str country "USA"
     then (usa_release_date <- get_usa_release_date release_info_soup ;;
           Ok (VNone, usa_release_date))%result
     else Ok (VNone, VNone)) ;;
  let '(japan_release_date, usa_release_date) := dates in
  genres <~ lift (get_genres soup) ;;
  imdb_user_rating <~ lift (get_user_rating soup) ;;
  imdb_user_rating_count <~ lift (get_user_rating_count soup) ;;
  oscar_wins <~ lift (get_oscar_wins soup) ;;
  non_oscar_wins <~ lift (get_non_oscar_wins soup) ;;
  metascore <~ lift (get_metascore soup) ;;
  ret (combine headers
         [title; country; runtime; budget; global_gross;
          mpaa_rating; japan_release_date;
          usa_release_date; genres; imdb_user_rating;
          imdb_user_rating_count; oscar_wins;
          non_oscar_wins; metascore]).

(** The words of the page's count line, e.g. [1-100 of 1,400 titles.] *)
Definition mini_header_of (soup : Node) : Result (list string) :=
  (desc <- attr_of (find soup (fun n => named "div" n && class_ "desc" n)) ;;
   next <- attr_of (findNext desc) ;;
   Ok (split (text next)))%result.

Definition get_num_titles (base_url : string) : Crawl Z :=
  soup <~ create_soup base_url ;;
  lift (mini_header <- mini_header_of soup ;;
        position <- index_of "titles." mini_header ;;
        word <- subscript mini_header (position - 1) ;;
        int (replace "," "" word))%result.

Definition get_search_urls (base_url next_url : string) : Crawl (list string) :=
  num_titles <~ get_num_titles base_url ;;
  ret ([base_url; next_url] ++
       map (fun i => replace "101" (str (201 + 100 * i)) next_url)
           (range (num_titles / 100 - 1)))%list.

End Scraper.

Arguments VNone {pyfloat}.
Arguments VStr {pyfloat} s.
Arguments VInt {pyfloat} n.
Arguments VFloat {pyfloat} f.
Arguments VDate {pyfloat} d.
Arguments fx_to_dollars_int {pyfloat} convert budget.
Arguments get_budget {pyfloat} convert soup.
Arguments get_user_rating {pyfloat} float soup.
Arguments get_movie_dict {pyfloat} float dateutil_parse convert page link _.
Arguments dict_get {pyfloat} d key.
Arguments is_str {pyfloat} v value.

(** ** Sample pages and collaborators

    The pages below have the shape of the site's pages, reduced to the
    elements the extractors look at. *)

(** A converter with one fixed rate, 107 units to the dollar. *)
Definition fixed_rate (base dest : string) (amount : Z) (date : datetime) : Result Z :=
  Ok (amount / 107)%Z.

Definition no_float (s : string) : Result Z := Raise ValueError.

Definition one_date (datestring : string) : Result datetime :=
  Ok (datetime_ymd 2001 7 20).

Definition html (body : list Node) : Node :=
  BeautifulSoup [Tag "html" [] [Tag "head" [] []; Tag "body" [] body]].

(** A search page whose count line is [line]. *)
Definition search_page (line : string) : Node :=
  html [Tag "div" [("class", "desc")] [Tag "span" [] [NavigableString line]]].

(** A labelled block of a movie's page: [<div><h4>label</h4>rest</div>]. *)
Definition txt_block (label : string) (rest : list Node) : Node :=
  Tag "div" [("class", "txt-block")]
    (Tag "h4" [("class", "inline")] [NavigableString label] :: rest).

Definition subtext_block (line : string) : Node :=
  Tag "div" [("class", "subtext")] [NavigableString line].

Definition awards_block (summary : string) (siblings : list Node) : Node :=
  Tag "div" [("class", "article highlighted")]
    (Tag "span" [("class", "awards-blurb")] [NavigableString summary] :: siblings).

(** A site with one movie, [/title/tt0000001/]. *)
Definition one_movie (movie release_info : Node) (url : string) : Result Node :=
  if (url =? "https://www.imdb.com/title/tt0000001/") then Ok movie
  else if (url =? "https://www.imdb.com/title/tt0000001/releaseinfo") then Ok release_info
  else Raise (ExternalError "ConnectionError").

(** A site whose every page is the search page with count line [line]. *)
Definition search_site (line : string) (url : string) : Result Node :=
  Ok (search_page line).


Definition country_block (country : string) : Node :=
  txt_block "Country:"
    [NavigableString " ";
     Tag "a" [("href", "/search/title?country_of_origin=" ++ country)]
       [NavigableString country]].

Definition japanese_movie : Node := html [country_block "Japan"].


Definition japanese_release_info : Node :=
  html [Tag "table" []
          [Tag "tr" []
             [Tag "td" []
                [Tag "a" [("href", "/calendar/?region=jp")] [NavigableString "Japan"]];
              Tag "td" [] [NavigableString "20 July 2001"]]]].

(** The dict of the Japanese movie, as [get_movie_dict] builds it. *)
Definition japanese_dict : Dict Z :=
  Eval vm_compute in
    match fst (get_movie_dict no_float one_date fixed_rate
                 (one_movie japanese_movie japanese_release_info)
                 "/title/tt0000001/" []) with
    | Ok d => d
    | Raise _ => []
    end.

(** ** The statements of the specification that the code does not meet,
    as the specification words them *)



(** "If [the enclosing text] contains both Japan and USA, "Japan, USA"; else
    if it contains Japan, Japan; else if USA, USA; else None." *)
Definition country_in (raw_text : string) : option string :=
  if contains "Japan" raw_text && contains "USA" raw_text then Some "Japan, USA"
  else if contains "Japan" raw_text then Some "Japan"
  else if contains "USA" raw_text then Some "USA"
  else None.

(** The text around a heading marker: the text of its parent. *)
Definition enclosing_text (marker : Element) : string :=
  match findParent marker with
  | Some parent => strip (text (node parent))
  | None => ""
  end.

(** The enclosing texts of the page's "Country:" markers, in page order. *)
Definition country_markers (soup : Node) : list string :=
  map enclosing_text
    (filter (in_contents "Country:") (find_all soup (named "h4"))).

(** "First matching marker wins; later markers are not consulted." *)
Definition first_marker_decides {pyfloat : Type} (markers : list string) : Value pyfloat :=
  match markers with
  | [] => VNone
  | raw_text :: _ =>
      match country_in raw_text with
      | Some country => VStr country
      | None => VNone
      end
  end.

Definition country_from_first_marker (pyfloat : Type) (soup : Node) : Prop :=
  get_country pyfloat soup = Ok (first_marker_decides (country_markers soup)).

(** What the loop of [get_country] does instead: a marker whose text names
    neither country is passed over. *)
Fixpoint first_marker_naming_a_country {pyfloat : Type} (markers : list string) : Value pyfloat :=
  match markers with
  | [] => VNone
  | raw_text :: later =>
      match country_in raw_text with
      | Some country => VStr country
      | None => first_marker_naming_a_country later
      end
  end.

Definition two_countries : Node :=
  html [country_block "France"; country_block "Japan"].


(** "ceil(T/100)": the number of pages that hold [T] titles, 100 a page. *)
Definition pages_for (T : Z) : Z := ((T + 99) / 100)%Z.


(** "A purely-numeric token": one or more of the digits 0 to 9. *)
Definition decimal (token : string) : bool :=
  match token with
  | EmptyString => false
  | _ => forallb_str is_ascii_digit token
  end.

(** The number a purely-numeric token writes; [acc] is the value of the
    digits already read. *)
Fixpoint decimal_from (acc : Z) (token : string) : Z :=
  match token with
  | EmptyString => acc
  | String c r => decimal_from (10 * acc + Z.of_nat (nat_of_ascii c - 48)) r
  end.

Definition decimal_value (token : string) : Z := decimal_from 0 token.

(** "The first purely-numeric whitespace token of the text, as an integer",
    if the text has one. *)
Definition first_number (raw_text : string) : option Z :=
  option_map decimal_value (List.find decimal (split (strip raw_text))).

(** "If the awards-summary element's own text contains "win", the first
    purely-numeric token of that text; otherwise None." *)
Definition own_wins {pyfloat : Type} (summary : string) : Value pyfloat :=
  if contains "win" (strip summary)
  then match first_number summary with
       | Some wins => VInt wins
       | None => VNone
       end
  else VNone.

(** "If the awards-summary text mentions Oscar and a following sibling
    exists whose text contains "win", the first purely-numeric token of that
    sibling's text; otherwise [own_wins]." *)
Definition non_oscar_wins_as_worded {pyfloat : Type}
    (summary : string) (sibling : option string) : Value pyfloat :=
  match sibling with
  | Some note =>
      if contains "Oscar" summary && contains "win" (strip note)
      then match first_number note with
           | Some wins => VInt wins
           | None => VNone
           end
      else own_wins summary
  | None => own_wins summary
  end.

Definition non_oscar_wins_as_specified (pyfloat : Type) (soup : Node) : Prop :=
  forall blurb,
    find soup (fun n => named "span" n && class_ "awards-blurb" n) = Some blurb ->
    get_non_oscar_wins pyfloat soup =
    Ok (non_oscar_wins_as_worded
          (text (node blurb)) (option_map text (findNextSibling blurb))).

(** What the code does instead: a sibling without a numeric token leaves
    the decision to the summary's own text. *)
Definition non_oscar_wins_falling_through {pyfloat : Type}
    (summary : string) (sibling : option string) : Value pyfloat :=
  match sibling with
  | Some note =>
      if contains "Oscar" summary && contains "win" (strip note)
      then match first_number note with
           | Some wins => VInt wins
           | None => own_wins summary
           end
      else own_wins summary
  | None => own_wins summary
  end.

(** Every token of the text that [str.isdigit] accepts is written with the
    digits 0 to 9. This leaves out the superscript digits, which [isdigit]
    accepts and [int] does not read. *)
Definition digits_are_decimal (raw_text : string) : bool :=
  forallb (fun token => implb (isdigit token) (decimal token))
          (split (strip raw_text)).

(** The two pages of the specification's examples, and a page whose
    sibling note has the word but no number. *)
Definition oscar_winner : Node :=
  html [awards_block "Won 2 Oscars. Another 5 wins."
          [Tag "span" [("class", "awards-blurb")] [NavigableString "5 wins"]]].

Definition award_winner : Node :=
  html [awards_block "12 wins & 3 nominations" []].

Definition oscar_winner_with_link : Node :=
  html [awards_block "Won 1 Oscar. Another 5 wins & 3 nominations."
          [Tag "span" [("class", "see-more inline")]
             [Tag "a" [("href", "awards")] [NavigableString "See all wins"]]]].

(** "For the enclosing-block text [block_text] the budget extractor returns
    [expected]": the enclosing block is the parent of the parent of the
    page's "Budget:" string. *)
Definition budget_of_block {pyfloat : Type}
    (convert : string -> string -> Z -> datetime -> Result pyfloat)
    (block_text : string) (expected : Result (Value pyfloat)) : Prop :=
  forall soup label parent block,
    find soup (with_text "Budget:") = Some label ->
    findParent label = Some parent ->
    findParent parent = Some block ->
    strip (text (node block)) = block_text ->
    get_budget convert soup = expected.

Definition budget_page (rest : string) : Node :=
  html [txt_block "Budget:" [NavigableString rest]].


(** ** The rest of the module: several pages at once *)

Section Frames.

Variable pyfloat : Type.
Variable float : string -> Result pyfloat.
Variable dateutil_parse : string -> Result datetime.
Variable convert : string -> string -> Z -> datetime -> Result pyfloat.
Variable page : string -> Result Node.

(** The loop of [create_soups]: each URL is requested and parsed in turn,
    the pages are collected in the order of the URLs. *)
Fixpoint create_soups (urls : list string) : Crawl (list Node) :=
  match urls with
  | [] => ret []
  | url :: rest =>
      bindC (fun log => (page url, (log ++ [url])%list)) (fun soup =>
      bindC (create_soups rest) (fun soups =>
      ret (soup :: soups)))
  end.

(** [tag.attrs] *)
Definition attrs_of (n : Node) : list (string * string) :=
  match n with
  | Tag _ ats _ => ats
  | NavigableString _ => []
  end.

(** The inner loop of [get_title_urls]: [element.find('a').get('href')] for
    each title span; [get] gives [None] for an anchor without [href]. *)
Fixpoint title_hrefs (title_spans : list Element) : Result (list (option string)) :=
  match title_spans with
  | [] => Ok []
  | element :: rest =>
      (a <- attr_of (find (node element) (named "a")) ;;
       links <- title_hrefs rest ;;
       Ok (get_attr "href" (attrs_of (node a)) :: links))%result
  end.

Fixpoint get_title_urls (soups : list Node) : Result (list (option string)) :=
  match soups with
  | [] => Ok []
  | soup :: rest =>
      (lister <- attr_of (find soup (fun n => named "div" n && class_ "lister-list" n)) ;;
       let title_spans :=
         find_all (node lister) (fun n => named "span" n && class_ "lister-item-header" n) in
       links <- title_hrefs title_spans ;;
       more <- get_title_urls rest ;;
       Ok (links ++ more)%list)%result
  end.

(** A computation that fetches pages and prints: beside the URLs requested
    it carries the numbers printed so far. *)
Definition Run (A : Type) : Type :=
  list string * list Z -> Result A * (list string * list Z).

Definition crawl {A : Type} (m : Crawl A) : Run A :=
  fun st => let (r, log') := m (fst st) in (r, (log', snd st)).

Definition print (n : Z) : Run unit :=
  fun st => (Ok tt, (fst st, (snd st ++ [n])%list)).

Definition bindR {A B : Type} (m : Run A) (k : A -> Run B) : Run B :=
  fun st =>
    match m st with
    | (Ok a, st') => k a st'
    | (Raise e, st') => (Raise e, st')
    end.

(** The loop of [get_movie_df]; [counter] is its value before the link. *)
Fixpoint get_movie_df_loop (links : list string) (counter : Z)
    : Run (list (Dict pyfloat)) :=
  match links with
  | [] => fun st => (Ok [], st)
  | link :: rest =>
      bindR (crawl (get_movie_dict float dateutil_parse convert page link)) (fun movie_dict =>
      bindR (print (counter + 1)) (fun _ =>
      bindR (get_movie_df_loop rest (counter + 1)) (fun movie_dicts =>
      fun st => (Ok (movie_dict :: movie_dicts), st))))
  end.

(** [pd.DataFrame(movie_dicts)]: the frame is held as its rows, one dict a
    row, in the order given. *)
Definition DataFrame (rows : list (Dict pyfloat)) : list (Dict pyfloat) := rows.

Definition get_movie_df (links : list string) : Run (list (Dict pyfloat)) :=
  bindR (get_movie_df_loop links 0) (fun movie_dicts =>
  fun st => (Ok (DataFrame movie_dicts), st)).

End Frames.

Arguments get_movie_df {pyfloat} float dateutil_parse convert page links _.
Arguments get_movie_df_loop {pyfloat} float dateutil_parse convert page links counter _.

(** The movie's page and its release-info page, as [get_movie_dict] names
    them. *)
Definition movie_urls (link : string) : list string :=
  ["https://www.imdb.com" ++ link; ("https://www.imdb.com" ++ link) ++ "releaseinfo"].

(** [[first + 1; ...; first + n]] *)
Definition counters (first : Z) (n : nat) : list Z :=
  map (fun k => (first + Z.of_nat k)%Z) (seq 1 n).

(** The values of the fourteen extractors on a movie's two pages, in the
    order of [headers]. *)
Definition extracted {pyfloat : Type}
    (float : string -> Result pyfloat)
    (dateutil_parse : string -> Result datetime)
    (convert : string -> string -> Z -> datetime -> Result pyfloat)
    (soup release_info_soup : Node) : list (Result (Value pyfloat)) :=
  let country := get_country pyfloat soup in
  [get_title pyfloat soup; country; get_runtime pyfloat soup;
   get_budget convert soup; get_global_gross pyfloat soup;
   get_mpaa_rating pyfloat soup;
   match country with
   | Ok c => if is_str c "Japan"
             then get_japan_release_date pyfloat dateutil_parse release_info_soup
             else Ok VNone
   | Raise e => Raise e
   end;
   match country with
   | Ok c => if is_str c "Japan" then Ok VNone
             else if is_str c "USA"
             then get_usa_release_date pyfloat release_info_soup
             else Ok VNone
   | Raise e => Raise e
   end;
   get_genres pyfloat soup; get_user_rating float soup;
   get_user_rating_count pyfloat soup; get_oscar_wins pyfloat soup;
   get_non_oscar_wins pyfloat soup; get_metascore pyfloat soup].


(** The characters of [s] that satisfy [p], in their order. *)
Fixpoint keep_chars (p : ascii -> bool) (s : string) : string :=
  match s with
  | EmptyString => EmptyString
  | String c r => if p c then String c (keep_chars p r) else keep_chars p r
  end.

Definition not_space (c : ascii) : bool := negb (is_space c).

Definition not_comma (c : ascii) : bool := negb (c =? ",")%char.


Definition runtime_block (runtime : string) : Node :=
  txt_block "Runtime:" [NavigableString " "; Tag "time" [] [NavigableString runtime]].

Definition gross_block (amount : string) : Node :=
  txt_block "Cumulative Worldwide Gross:" [NavigableString (" " ++ amount)].


(** A search page that lists movies: one header span with an anchor for
    each link. *)
Definition lister_item (href : string) : Node :=
  Tag "div" [("class", "lister-item mode-simple")]
    [Tag "span" [("class", "lister-item-header")]
       [Tag "span" [("class", "lister-item-index")] [NavigableString "1."];
        Tag "a" [("href", href)] [NavigableString "A title"]]].

Definition lister_page (hrefs : list string) : Node :=
  html [Tag "div" [("class", "lister-list")] (map lister_item hrefs)].

(** A site of numbered search pages. *)
Definition two_pages (url : string) : Result Node :=
  if (url =? "page1") then Ok (lister_page ["/title/tt0000001/"; "/title/tt0000002/"])
  else if (url =? "page2") then Ok (lister_page ["/title/tt0000003/"])
  else Raise (ExternalError "ConnectionError").


(** The characters of a number written with thousands separators. *)
Definition amount_char (c : ascii) : bool :=
  is_ascii_digit c || (c =? "-")%char || (c =? ",")%char.

Definition not_newline (c : ascii) : bool := negb (c =? nl)%char.


Definition not_nbsp (c : ascii) : bool := negb (c =? nbsp)%char.

(** What may follow the amount in a budget block: nothing, or a newline and
    a decoration on one line, such as "(estimated)". *)
Definition decoration (tail : string) : Prop :=
  tail = "" \/
  exists deco, tail = String nl deco /\
    forallb_str not_newline deco = true /\
    contains "Budget:" deco = false /\
    keep_chars not_comma deco <> "".

Definition title_page (heading : string) : Node :=
  html [Tag "h1" [("class", "")] [NavigableString heading]].

(** * Properties *)

(** ** Strings *)

Example split_count_line :
  split "  1-100 of 1,400
 titles. " = ["1-100"; "of"; "1,400"; "titles."].
Proof. reflexivity. Qed.

Example strip_both_ends : strip "  a b  " = "a b".
Proof. reflexivity. Qed.

Example replace_leftmost_first :
  replace "101" "201" "x101y10101z" = "x201y20101z".
Proof. reflexivity. Qed.

Example replace_empty_old : replace "" "-" "abc" = "-a-b-c-".
Proof. reflexivity. Qed.

Example int_accepts :
  int " 1_000 " = Ok 1000%Z /\ int "-5" = Ok (-5)%Z /\ int "007" = Ok 7%Z.
Proof. repeat split; reflexivity. Qed.

Example int_rejects :
  int "1__0" = Raise ValueError /\ int "12 (e)" = Raise ValueError /\
  int "" = Raise ValueError.
Proof. repeat split; reflexivity. Qed.

Example str_of_int : str 201 = "201" /\ str 0 = "0" /\ str (-3) = "-3".
Proof. repeat split; reflexivity. Qed.

Example sub_after_newline :
  re_sub_dotplus nl false
    ("a" ++ String nl "" ++ String nl "" ++ "bc" ++ String nl "d")
  = "a" ++ String nl "".
Proof. reflexivity. Qed.

Lemma prefix_length p : forall s, prefix p s = true -> String.length p <= String.length s.
Proof.
  induction p as [|a p IH]; intros [|c s]; simpl; try lia; try discriminate.
  destruct (ascii_dec a c); [|discriminate].
  intros H. apply IH in H. lia.
Qed.

Lemma prefix_app p : forall s, prefix p (p ++ s) = true.
Proof.
  induction p as [|a p IH]; intros s; simpl.
  - now destruct s.
  - destruct (ascii_dec a a); [apply IH|congruence].
Qed.

Lemma prefix_decompose p : forall s, prefix p s = true -> s = p ++ drop (String.length p) s.
Proof.
  induction p as [|a p IH]; intros [|c s]; simpl; try reflexivity; try discriminate.
  destruct (ascii_dec a c) as [->|]; [|discriminate].
  intros H. f_equal. now apply IH.
Qed.

Lemma drop_app p : forall s, drop (String.length p) (p ++ s) = s.
Proof. induction p as [|a p IH]; intros s; simpl; auto. Qed.

Lemma drop_length n : forall s, String.length (drop n s) = String.length s - n.
Proof. induction n as [|n IH]; intros [|c s]; simpl; auto. Qed.

Lemma append_length a : forall b, String.length (a ++ b) = String.length a + String.length b.
Proof. induction a as [|c a IH]; intros b; simpl; auto. Qed.

Lemma append_assoc a : forall b c, (a ++ b) ++ c = a ++ (b ++ c).
Proof. induction a as [|x a IH]; intros b c; simpl; [|rewrite IH]; reflexivity. Qed.

Lemma append_inv_head a : forall b c, a ++ b = a ++ c -> b = c.
Proof. induction a as [|x a IH]; intros b c; simpl; auto. intros [= H]. auto. Qed.

Lemma take_app n : forall a s, take (String.length a + n) (a ++ s) = a ++ take n s.
Proof. intros a; induction a as [|x a IH]; intros s; simpl; [|rewrite IH]; reflexivity. Qed.

Lemma prefix_take p : forall s n, String.length p <= n -> prefix p (take n s) = prefix p s.
Proof.
  induction p as [|a p IH]; intros s n Hn.
  - now destruct (take n s), s.
  - simpl in Hn. destruct n as [|n]; [lia|].
    destruct s as [|c s]; simpl; [reflexivity|].
    destruct (ascii_dec a c); [apply IH; lia|reflexivity].
Qed.

(** The skipped characters of [replace_from] are dropped ones. *)
Lemma replace_from_skip old new : forall s k,
  replace_from old new k s = replace_from old new 0 (drop k s).
Proof.
  induction s as [|c r IH]; intros [|k]; simpl; auto.
Qed.

(** [replace] looks for [old] at the head of the string, and goes on after
    the occurrence it found or after the character it kept. *)
Lemma replace_cons old new c r : old <> "" ->
  replace old new (String c r) =
  if prefix old (String c r)
  then new ++ replace old new (drop (String.length old) (String c r))
  else String c (replace old new r).
Proof.
  intros Hold. unfold replace. cbn [replace_from].
  destruct (prefix old (String c r)) eqn:E; [|reflexivity].
  destruct old as [|a old]; [congruence|].
  rewrite replace_from_skip. simpl String.length. simpl drop.
  now rewrite Nat.sub_0_r.
Qed.

Lemma replace_nil old new : old <> "" -> replace old new "" = "".
Proof. intros H. unfold replace. simpl. destruct old; congruence. Qed.

(** At an occurrence of [old], [new] is written and the rest is searched. *)
Lemma replace_occurrence old new s : old <> "" ->
  replace old new (old ++ s) = new ++ replace old new s.
Proof.
  intros Hold. destruct old as [|a old]; [congruence|].
  change (String a old ++ s) with (String a (old ++ s)).
  rewrite replace_cons by assumption.
  change (String a (old ++ s)) with (String a old ++ s).
  now rewrite prefix_app, drop_app.
Qed.

(** Where no occurrence of [old] starts, the characters are kept. *)
Lemma replace_keep old new : old <> "" -> forall a s,
  contains old (a ++ take (String.length old - 1) s) = false ->
  replace old new (a ++ s) = a ++ replace old new s.
Proof.
  intros Hold a. induction a as [|c a IH]; intros s H; [reflexivity|].
  cbn [append] in *. cbn [contains] in H.
  apply orb_false_iff in H as [Hp Hc].
  rewrite replace_cons by assumption.
  assert (E : prefix old (String c (a ++ s)) = false).
  { rewrite <- Hp.
    change (String c (a ++ take (String.length old - 1) s))
      with (String c a ++ take (String.length old - 1) s).
    rewrite <- take_app. symmetry.
    change (String c (a ++ s)) with (String c a ++ s).
    apply prefix_take. simpl. lia. }
  rewrite E. f_equal. now apply IH.
Qed.

Lemma replace_absent old new : old <> "" -> forall s,
  contains old s = false -> replace old new s = s.
Proof.
  intros Hold s. induction s as [|c s IH]; intros H.
  - now apply replace_nil.
  - cbn [contains] in H. apply orb_false_iff in H as [Hp Hc].
    rewrite replace_cons, Hp by assumption. f_equal. auto.
Qed.

Lemma replace_length_le old new : old <> "" ->
  String.length new <= String.length old ->
  forall n s, String.length s <= n ->
  String.length (replace old new s) <= String.length s.
Proof.
  intros Hold Hlen. induction n as [|n IH]; intros [|c r] Hn;
    try (rewrite replace_nil by assumption; simpl; lia); [simpl in Hn; lia|].
  rewrite replace_cons by assumption.
  destruct (prefix old (String c r)) eqn:E.
  - pose proof (prefix_length _ _ E) as Hp.
    assert (Hold' : 1 <= String.length old) by (destruct old; [congruence|simpl; lia]).
    rewrite append_length.
    specialize (IH (drop (String.length old) (String c r))).
    rewrite drop_length in IH.
    change (String.length (String c r)) with (S (String.length r)) in *. lia.
  - change (String.length (String c r)) with (S (String.length r)) in Hn.
    specialize (IH r). simpl. lia.
Qed.

Lemma replace_length_ge old new : old <> "" ->
  String.length old <= String.length new ->
  forall n s, String.length s <= n ->
  String.length s <= String.length (replace old new s).
Proof.
  intros Hold Hlen. induction n as [|n IH]; intros [|c r] Hn;
    try (rewrite replace_nil by assumption; simpl; lia); [simpl in Hn; lia|].
  rewrite replace_cons by assumption.
  destruct (prefix old (String c r)) eqn:E.
  - pose proof (prefix_length _ _ E) as Hp.
    assert (Hold' : 1 <= String.length old) by (destruct old; [congruence|simpl; lia]).
    rewrite append_length.
    specialize (IH (drop (String.length old) (String c r))).
    rewrite drop_length in IH.
    change (String.length (String c r)) with (S (String.length r)) in *. lia.
  - change (String.length (String c r)) with (S (String.length r)) in Hn.
    specialize (IH r). simpl. lia.
Qed.

Lemma append_same_length a : forall b x y,
  a ++ x = b ++ y -> String.length a = String.length b -> a = b.
Proof.
  induction a as [|c a IH]; intros [|d b] x y H L; simpl in *; try lia; auto.
  injection H as -> H. f_equal. eauto.
Qed.

(** A string in which [old] occurs is changed by the replacement, whatever
    [new] is, as long as it is not [old] itself. *)
Lemma replace_present old new : old <> "" -> new <> old -> forall s,
  contains old s = true -> replace old new s <> s.
Proof.
  intros Hold Hnew s. induction s as [|c s IH]; intros H.
  - simpl in H. rewrite orb_false_r in H. destruct old; [congruence|discriminate].
  - rewrite replace_cons by assumption.
    destruct (prefix old (String c s)) eqn:E.
    + intros Heq.
      rewrite (prefix_decompose _ _ E) in Heq at 2.
      pose proof (f_equal String.length Heq) as HL.
      rewrite !append_length in HL.
      set (rest := drop (String.length old) (String c s)) in *.
      pose proof (replace_length_le old new Hold) as Hle.
      pose proof (replace_length_ge old new Hold) as Hge.
      destruct (Nat.lt_trichotomy (String.length new) (String.length old)) as [L|[L|L]].
      * specialize (Hle (Nat.lt_le_incl _ _ L) _ rest (le_n _)). lia.
      * apply Hnew. eapply append_same_length; eauto.
      * specialize (Hge (Nat.lt_le_incl _ _ L) _ rest (le_n _)). lia.
    + cbn [contains] in H. rewrite E in H. simpl in H.
      intros [= Heq]. now apply IH.
Qed.

(** [str] is one-to-one. *)
Lemma str_inj a b : str a = str b -> a = b.
Proof.
  unfold str. intros H.
  assert (N : forall z, Z.to_int z <> Decimal.Pos Decimal.Nil /\ Z.to_int z <> Decimal.Neg Decimal.Nil).
  { intros [|p|p]; simpl; split; try discriminate;
      intros [= E]; exact (DecimalPos.Unsigned.to_uint_nonnil p E). }
  pose proof (NilZero.isi (Z.to_int a) (proj1 (N a)) (proj2 (N a))) as Ha.
  pose proof (NilZero.isi (Z.to_int b) (proj1 (N b)) (proj2 (N b))) as Hb.
  rewrite H in Ha. rewrite Ha in Hb. injection Hb as Hab.
  rewrite <- (DecimalZ.of_to a), <- (DecimalZ.of_to b). now f_equal.
Qed.

(** ** One movie's dict *)

Ltac crawl_step H :=
  match type of H with
  | context [match ?r with Ok _ => _ | Raise _ => _ end] =>
      let E := fresh "E" in destruct r eqn:E; cbv beta iota in H; try discriminate H
  | context [let '(_, _) := ?p in _] => destruct p
  end.

(** What a returned dict tells about the run that built it: both pages were
    requested, in this order, and the two dates come from the branch the
    country selects. *)
Lemma get_movie_dict_ok (pyfloat : Type) float dateutil_parse convert page link log
    (d : Dict pyfloat) log' :
  get_movie_dict float dateutil_parse convert page link log = (Ok d, log') ->
  let url := "https://www.imdb.com" ++ link in
  log' = (log ++ [url; (url ++ "releaseinfo")%string])%list /\
  exists soup release_info_soup,
    page url = Ok soup /\
    page (url ++ "releaseinfo") = Ok release_info_soup /\
    get_country pyfloat soup = Ok (dict_get d "country") /\
    (if is_str (dict_get d "country") "Japan"
     then get_japan_release_date pyfloat dateutil_parse release_info_soup
            = Ok (dict_get d "japan_release_date") /\
          dict_get d "usa_release_date" = VNone
     else if is_str (dict_get d "country") "USA"
     then get_usa_release_date pyfloat release_info_soup
            = Ok (dict_get d "usa_release_date") /\
          dict_get d "japan_release_date" = VNone
     else dict_get d "japan_release_date" = VNone /\
          dict_get d "usa_release_date" = VNone).
Proof.
  intros H url. subst url.
  unfold get_movie_dict, bindC, lift, create_soup, ret in H.
  repeat crawl_step H; try discriminate H.
  injection H as <- <-.
  split; [now rewrite <- app_assoc|].
  eexists _, _. do 2 (split; [reflexivity|]).
  cbn. split; [assumption|].
  destruct (is_str _ "Japan"); [|destruct (is_str _ "USA")].
  - destruct (get_japan_release_date _ _ _); [|discriminate]. now injection E7 as -> ->.
  - destruct (get_usa_release_date _ _); [|discriminate]. now injection E7 as -> ->.
  - now injection E7 as -> ->.
Qed.


Lemma is_str_true (pyfloat : Type) (v : Value pyfloat) s :
  is_str v s = true <-> v = VStr s.
Proof.
  destruct v; simpl; try (split; [discriminate|intros [=]]).
  rewrite String.eqb_eq. split; [now intros ->|now intros [=]].
Qed.

Lemma is_str_false (pyfloat : Type) (v : Value pyfloat) s :
  is_str v s = false <-> v <> VStr s.
Proof.
  rewrite <- is_str_true. destruct (is_str v s); split; congruence.
Qed.

(** C1. In every dict [get_movie_dict] returns, the two release dates are
    not both present: for country Japan the USA date is None, for country
    USA the Japan date is None, and for any other country, "Japan, USA" and
    None among them, both are None. *)
Theorem release_dates_exclusive (pyfloat : Type) float dateutil_parse convert page
    link log (d : Dict pyfloat) log' :
  get_movie_dict float dateutil_parse convert page link log = (Ok d, log') ->
  (dict_get d "japan_release_date" = VNone \/ dict_get d "usa_release_date" = VNone) /\
  (dict_get d "country" = VStr "Japan" -> dict_get d "usa_release_date" = VNone) /\
  (dict_get d "country" = VStr "USA" -> dict_get d "japan_release_date" = VNone) /\
  (dict_get d "country" <> VStr "Japan" -> dict_get d "country" <> VStr "USA" ->
   dict_get d "japan_release_date" = VNone /\ dict_get d "usa_release_date" = VNone).
Proof.
  intros H. apply get_movie_dict_ok in H as (_ & soup & ris & _ & _ & _ & H).
  destruct (is_str (dict_get d "country") "Japan") eqn:J;
    [|destruct (is_str (dict_get d "country") "USA") eqn:U].
  - apply is_str_true in J. destruct H as [_ H].
    split; [now right|]. split; [trivial|]. split.
    + rewrite J. discriminate.
    + intros N. contradiction.
  - apply is_str_true in U. destruct H as [_ H].
    split; [now left|]. split; [|split].
    + rewrite U. discriminate.
    + trivial.
    + intros _ N. contradiction.
  - apply is_str_false in J, U. destruct H as [Hj Hu].
    split; [now left|]. split; [|split].
    + intros E. contradiction.
    + intros E. contradiction.
    + intros _ _. now split.
Qed.

Lemma release_dates_exclusive_witness :
  get_movie_dict no_float one_date fixed_rate
    (one_movie japanese_movie japanese_release_info) "/title/tt0000001/" []
  = (Ok japanese_dict,
     ["https://www.imdb.com/title/tt0000001/";
      "https://www.imdb.com/title/tt0000001/releaseinfo"]) /\
  dict_get japanese_dict "country" = VStr "Japan" /\
  dict_get japanese_dict "japan_release_date" = VDate (datetime_ymd 2001 7 20) /\
  dict_get japanese_dict "usa_release_date" = VNone.
Proof.
  assert (H : get_movie_dict no_float one_date fixed_rate
                (one_movie japanese_movie japanese_release_info) "/title/tt0000001/" []
              = (Ok japanese_dict,
                 ["https://www.imdb.com/title/tt0000001/";
                  "https://www.imdb.com/title/tt0000001/releaseinfo"]))
    by (vm_compute; reflexivity).
  split; [exact H|].
  split; [reflexivity|]. split; [reflexivity|].
  exact (proj1 (proj2 (release_dates_exclusive _ _ _ _ _ _ _ _ _ H)) eq_refl).
Defined.






(** ** Elements and their parents *)

Lemma walk_children_ctx (walk' : list Frame -> Node -> list Element) nm ats cx right :
  Forall (fun c => forall cx' e, In e (walk' cx' c) -> List.length cx' <= List.length (ctx e)) right ->
  forall left e, In e (walk_children walk' nm ats cx left right) ->
  S (List.length cx) <= List.length (ctx e).
Proof.
  induction 1 as [|c r Hc _ IH]; intros left e; simpl; [tauto|].
  rewrite in_app_iff. intros [H|H].
  - apply Hc in H. simpl in H. exact H.
  - eapply IH, H.
Qed.

Lemma walk_ctx n : forall cx e, In e (walk cx n) -> List.length cx <= List.length (ctx e).
Proof.
  induction n as [s|nm ats cs IH] using Node_ind'; intros cx e; simpl.
  - intros [<-|[]]. reflexivity.
  - intros [<-|H]; [reflexivity|].
    apply walk_children_ctx in H; [lia|exact IH].
Qed.

(** Whatever [find] and [find_all] return has a parent. *)
Lemma descendants_have_parent soup e :
  In e (descendants soup) -> exists parent, findParent e = Some parent.
Proof.
  unfold descendants. destruct soup as [s|nm ats cs]; simpl; [tauto|].
  intros H. apply walk_children_ctx in H.
  - unfold findParent. destruct (ctx e); simpl in H; [lia|eauto].
  - apply Forall_forall. intros c _ cx' e'. apply walk_ctx.
Qed.

(** ** The country *)

Lemma get_country_loop_spec (pyfloat : Type) elements :
  Forall (fun e => exists parent, findParent e = Some parent) elements ->
  get_country_loop pyfloat elements =
  Ok (first_marker_naming_a_country
        (map enclosing_text (filter (in_contents "Country:") elements))).
Proof.
  induction 1 as [|e l [parent Hp] _ IH]; [reflexivity|].
  cbn [get_country_loop filter].
  destruct (in_contents "Country:" e); [|exact IH].
  cbn [map first_marker_naming_a_country]. unfold enclosing_text, country_in.
  rewrite Hp. cbn [attr_of bind].
  destruct (contains "Japan" _), (contains "USA" _); simpl; auto.
Qed.

(** C6, as the specification words it, fails: on a page whose first
    "Country:" marker names France and whose second names Japan, the
    extractor returns Japan, not None. *)
Lemma later_country_marker_consulted :
  ~ country_from_first_marker Z two_countries.
Proof. unfold country_from_first_marker. vm_compute. discriminate. Qed.

(** C6, amended. The country extractor goes through the heading markers
    that hold a "Country:" label in page order and decides on the first one
    whose enclosing text contains "Japan" or "USA": "Japan, USA" if it
    contains both, else "Japan", else "USA". A marker whose text contains
    neither is passed over and the later markers are consulted; the result
    is None only when no marker's text contains either name. *)
Theorem country_from_first_marker_naming_a_country (pyfloat : Type) soup :
  get_country pyfloat soup =
  Ok (first_marker_naming_a_country (country_markers soup)) /\
  get_country pyfloat two_countries = Ok (VStr "Japan").
Proof.
  split; [|reflexivity].
  unfold get_country, country_markers. apply get_country_loop_spec.
  apply Forall_forall. intros e H. apply descendants_have_parent with (soup := soup).
  unfold find_all in H. now apply filter_In in H as [H _].
Qed.


(** ** Lists *)

Lemma index_of_first x before : forall after,
  ~ In x before ->
  index_of x (before ++ x :: after)%list = Ok (Z.of_nat (List.length before)).
Proof.
  induction before as [|y l IH]; intros after H; simpl.
  - now rewrite String.eqb_refl.
  - destruct (String.eqb_spec y x) as [->|_]; [elim H; now left|].
    rewrite IH by (intros N; apply H; now right).
    f_equal. lia.
Qed.

Lemma index_of_absent x l : ~ In x l -> index_of x l = Raise ValueError.
Proof.
  induction l as [|y l IH]; intros H; simpl; [reflexivity|].
  destruct (String.eqb_spec y x) as [->|_]; [elim H; now left|].
  now rewrite IH by (intros N; apply H; now right).
Qed.

Lemma subscript_middle {A : Type} (before : list A) x after :
  subscript (before ++ x :: after)%list (Z.of_nat (List.length before)) = Ok x.
Proof.
  unfold subscript. rewrite length_app. simpl List.length.
  destruct (Z.ltb_spec (Z.of_nat (List.length before)) 0); [lia|].
  rewrite Nat2Z.id, nth_error_app2, Nat.sub_diag by lia. simpl.
  destruct (Z.leb_spec 0 (Z.of_nat (List.length before))); [|lia].
  destruct (Z.ltb_spec (Z.of_nat (List.length before))
              (Z.of_nat (List.length before + S (List.length after)))); [reflexivity|lia].
Qed.

Lemma subscript_last {A : Type} (x : A) l d :
  subscript (x :: l) (-1) = Ok (last (x :: l) d).
Proof.
  destruct (exists_last (l := x :: l) ltac:(discriminate)) as (before & y & E).
  rewrite E, last_last, <- (subscript_middle before y []).
  unfold subscript. rewrite length_app. simpl List.length.
  change (-1 <? 0)%Z with true. cbv iota.
  destruct (Z.ltb_spec (Z.of_nat (List.length before)) 0); [lia|].
  now replace (Z.of_nat (List.length before + 1) + -1)%Z
    with (Z.of_nat (List.length before)) by lia.
Qed.

(** ** The MPAA rating *)

(** What the extractor accepts: the list has ten strings, the last of them
    is [TV-14TV-MA]. *)
Lemma ratings_accepted rating :
  existsb (String.eqb rating) ratings = true <->
  In rating ["G"; "PG"; "PG-13"; "R"; "TV-Y"; "TV-Y7"; "TV-Y7 FV";
             "TV-G"; "TV-PG"; "TV-14TV-MA"].
Proof.
  rewrite existsb_exists. split.
  - intros (x & Hx & E). apply String.eqb_eq in E. subst x. exact Hx.
  - intros H. exists rating. split; [exact H|apply String.eqb_refl].
Qed.

Lemma subscript_head {A : Type} (x : A) l : subscript (x :: l) 0 = Ok x.
Proof. exact (subscript_middle [] x l). Qed.

Lemma get_mpaa_rating_first_token (pyfloat : Type) soup subtext rating rest :
  find soup (fun n => named "div" n && class_ "subtext" n) = Some subtext ->
  split (strip (text (node subtext))) = rating :: rest ->
  get_mpaa_rating pyfloat soup =
  Ok (if existsb (String.eqb rating) ratings then VStr rating else VNone).
Proof.
  intros Hf Hs. unfold get_mpaa_rating. rewrite Hf, Hs, subscript_head.
  cbn [bind]. now destruct (existsb (String.eqb rating) ratings).
Qed.

(** C3 fails on the code. [TV-14] and [TV-MA] belong to the closed set of
    the specification, yet on every page whose subtext starts with either
    the extractor returns None: the two last literals of [ratings] are
    written without a comma between them and make the one string
    [TV-14TV-MA]. *)
Theorem mpaa_rating_TV_14_and_TV_MA_rejected (pyfloat : Type) soup subtext rating rest :
  find soup (fun n => named "div" n && class_ "subtext" n) = Some subtext ->
  split (strip (text (node subtext))) = rating :: rest ->
  rating = "TV-14" \/ rating = "TV-MA" ->
  get_mpaa_rating pyfloat soup = Ok VNone.
Proof.
  intros Hf Hs Hr.
  rewrite (get_mpaa_rating_first_token _ _ _ _ _ Hf Hs).
  destruct (existsb (String.eqb rating) ratings) eqn:E; [|reflexivity].
  apply ratings_accepted in E. exfalso.
  destruct Hr as [-> | ->]; simpl in E;
    repeat (destruct E as [E|E]; [discriminate E|]); exact E.
Qed.

Lemma mpaa_rating_TV_14_and_TV_MA_rejected_witness :
  get_mpaa_rating Z (html [subtext_block "TV-14 | 24min | Animation"]) = Ok VNone /\
  get_mpaa_rating Z (html [subtext_block "TV-MA | 24min | Animation"]) = Ok VNone.
Proof.
  split.
  - eapply (mpaa_rating_TV_14_and_TV_MA_rejected Z);
      [cbv; reflexivity|cbv; reflexivity|now left].
  - eapply (mpaa_rating_TV_14_and_TV_MA_rejected Z);
      [cbv; reflexivity|cbv; reflexivity|now right].
Defined.

(** The other ratings are returned, a first word outside the list gives
    None, and the joined string is taken for a rating. *)
Example mpaa_rating_samples :
  get_mpaa_rating Z (html [subtext_block "PG-13 | 1h 30min"]) = Ok (VStr "PG-13") /\
  get_mpaa_rating Z (html [subtext_block "Not Rated | 1h 30min"]) = Ok VNone /\
  get_mpaa_rating Z (html [subtext_block "TV-14TV-MA | 24min"]) = Ok (VStr "TV-14TV-MA").
Proof. repeat split; reflexivity. Qed.

(** ** The number of titles *)

(** The parser on a count line in which a word precedes the first
    [titles.]: the word, without its commas, is read as an integer. *)
Lemma get_num_titles_preceding page base_url log soup before word after :
  page base_url = Ok soup ->
  mini_header_of soup = Ok (before ++ word :: "titles." :: after)%list ->
  ~ In "titles." (before ++ [word])%list ->
  get_num_titles page base_url log =
  (int (replace "," "" word), (log ++ [base_url])%list).
Proof.
  intros Hp Hm Hn. unfold get_num_titles, bindC, create_soup, lift.
  rewrite Hp, Hm. cbn [bind].
  replace (before ++ word :: "titles." :: after)%list
    with ((before ++ [word]) ++ "titles." :: after)%list
    by (now rewrite <- app_assoc).
  rewrite index_of_first by assumption. cbn [bind].
  rewrite length_app. simpl List.length.
  replace (Z.of_nat (List.length before + 1) - 1)%Z with (Z.of_nat (List.length before)) by lia.
  rewrite <- app_assoc. simpl app. rewrite subscript_middle. reflexivity.
Qed.

(** The parser on a count line without the word [titles.]. *)
Lemma get_num_titles_absent page base_url log soup mini_header :
  page base_url = Ok soup ->
  mini_header_of soup = Ok mini_header ->
  ~ In "titles." mini_header ->
  get_num_titles page base_url log = (Raise ValueError, (log ++ [base_url])%list).
Proof.
  intros Hp Hm Hn. unfold get_num_titles, bindC, create_soup, lift.
  rewrite Hp, Hm. cbn [bind]. now rewrite index_of_absent.
Qed.

(** C9 fails on the code. On a count line that starts with [titles.] no
    word precedes it, so the specification asks for a parse error; the
    subscript [position - 1] is then [-1], which Python reads from the end
    of the list: the parser reads the last word of the line, and returns it
    when it is a number. *)
Theorem get_num_titles_wraps_around page base_url log soup rest :
  page base_url = Ok soup ->
  mini_header_of soup = Ok ("titles." :: rest) ->
  get_num_titles page base_url log =
  (int (replace "," "" (last ("titles." :: rest) "")), (log ++ [base_url])%list).
Proof.
  intros Hp Hm. unfold get_num_titles, bindC, create_soup, lift.
  rewrite Hp, Hm. cbn [bind index_of]. rewrite String.eqb_refl. cbn [bind].
  change (0 - 1)%Z with (-1)%Z. now rewrite (subscript_last _ _ "").
Qed.

Lemma get_num_titles_wraps_around_witness :
  mini_header_of (search_page "titles. 1-50 of 250")
    = Ok ["titles."; "1-50"; "of"; "250"] /\
  get_num_titles (search_site "titles. 1-50 of 250") JAPAN_BASE_URL []
    = (Ok 250%Z, [JAPAN_BASE_URL]).
Proof.
  split; [reflexivity|].
  exact (get_num_titles_wraps_around (search_site "titles. 1-50 of 250")
           JAPAN_BASE_URL [] _ ["1-50"; "of"; "250"] eq_refl eq_refl).
Defined.


(** ** The search pages *)

Lemma range_length n : List.length (range n) = Z.to_nat n.
Proof. unfold range. now rewrite length_map, length_seq. Qed.

Lemma nth_error_range n k :
  (Z.of_nat k < n)%Z -> nth_error (range n) k = Some (Z.of_nat k).
Proof.
  intros H. unfold range.
  rewrite nth_error_map, nth_error_seq.
  destruct (Nat.ltb_spec k (Z.to_nat n)); [reflexivity|lia].
Qed.

(** [get_search_urls] once the count is read. *)
Lemma get_search_urls_spec page base_url next_url log T log' :
  get_num_titles page base_url log = (Ok T, log') ->
  get_search_urls page base_url next_url log =
  (Ok ([base_url; next_url] ++
       map (fun i => replace "101" (str (201 + 100 * i)) next_url)
           (range (T / 100 - 1)))%list, log').
Proof.
  intros H. unfold get_search_urls, bindC, ret. now rewrite H.
Qed.

(** The number of URLs past the two given ones is [T // 100 - 1], or none
    when that is negative. *)
Lemma additional_urls_count page base_url next_url log T log' :
  get_num_titles page base_url log = (Ok T, log') ->
  exists urls,
    get_search_urls page base_url next_url log = (Ok urls, log') /\
    List.length urls = 2 + Z.to_nat (T / 100 - 1).
Proof.
  intros H. eexists. split; [exact (get_search_urls_spec _ _ _ _ _ _ H)|].
  rewrite length_app, length_map, range_length. reflexivity.
Qed.

(** [T // 100 - 1] is [ceil(T/100) - 2] unless 100 divides [T]; then it is
    one more. *)
Lemma floor_and_ceil T :
  ((T mod 100 <> 0 -> T / 100 - 1 = pages_for T - 2) /\
   (T mod 100 = 0 -> T / 100 - 1 = pages_for T - 1))%Z.
Proof.
  unfold pages_for.
  pose proof (Z.div_mod T 100 ltac:(lia)) as E.
  pose proof (Z.mod_pos_bound T 100 ltac:(lia)) as B.
  split; intros H.
  - assert ((T + 99) / 100 = T / 100 + 1)%Z; [|lia].
    symmetry. apply Z.div_unique with (r := (T mod 100 - 1)%Z); lia.
  - assert ((T + 99) / 100 = T / 100)%Z; [|lia].
    symmetry. apply Z.div_unique with (r := 99%Z); lia.
Qed.

(** C2 fails on the code. When the count is a multiple of 100, 200 or more,
    the two given URLs and [ceil(T/100) - 2] further ones are all the pages
    there are, but the loop runs [T // 100 - 1] times, once more: one URL
    too many is returned, for titles past the last one. *)
Theorem one_url_too_many_at_multiples_of_100 page base_url next_url log T log' :
  get_num_titles page base_url log = (Ok T, log') ->
  (200 <= T)%Z -> (T mod 100 = 0)%Z ->
  exists urls,
    get_search_urls page base_url next_url log = (Ok urls, log') /\
    Z.of_nat (List.length urls) = (2 + (pages_for T - 2) + 1)%Z.
Proof.
  intros H Hge Hmod. eexists. split; [exact (get_search_urls_spec _ _ _ _ _ _ H)|].
  rewrite length_app, length_map, range_length.
  destruct (floor_and_ceil T) as [_ F]. specialize (F Hmod).
  assert (2 <= T / 100)%Z by (apply Z.div_le_lower_bound; lia).
  simpl List.length. lia.
Qed.

Lemma one_url_too_many_at_multiples_of_100_witness :
  get_search_urls (search_site "1-100 of 200 titles.") JAPAN_BASE_URL JAPAN_NEXT_URL []
  = (Ok [JAPAN_BASE_URL; JAPAN_NEXT_URL; replace "101" "201" JAPAN_NEXT_URL],
     [JAPAN_BASE_URL]) /\
  (exists urls,
     get_search_urls (search_site "1-100 of 200 titles.") JAPAN_BASE_URL JAPAN_NEXT_URL []
       = (Ok urls, [JAPAN_BASE_URL]) /\
     Z.of_nat (List.length urls) = 3%Z) /\
  (pages_for 200 = 2)%Z.
Proof.
  split; [reflexivity|]. split; [|reflexivity].
  exact (one_url_too_many_at_multiples_of_100
           (search_site "1-100 of 200 titles.") JAPAN_BASE_URL JAPAN_NEXT_URL [] 200
           [JAPAN_BASE_URL] eq_refl ltac:(lia) eq_refl).
Defined.

(** C8. When the count read from the first page is 250, three URLs are
    returned; when it is 100, two. *)
Theorem search_urls_for_250_and_100 page base_url next_url log T log' :
  get_num_titles page base_url log = (Ok T, log') ->
  exists urls,
    get_search_urls page base_url next_url log = (Ok urls, log') /\
    (T = 250%Z -> List.length urls = 3) /\
    (T = 100%Z -> List.length urls = 2).
Proof.
  intros H. eexists. split; [exact (get_search_urls_spec _ _ _ _ _ _ H)|].
  rewrite length_app, length_map, range_length.
  split; intros ->; reflexivity.
Qed.

Lemma search_urls_for_250_and_100_witness :
  (get_num_titles (search_site "1-100 of 250 titles.") JAPAN_BASE_URL []
     = (Ok 250%Z, [JAPAN_BASE_URL]) /\
   exists urls,
     get_search_urls (search_site "1-100 of 250 titles.")
       JAPAN_BASE_URL JAPAN_NEXT_URL [] = (Ok urls, [JAPAN_BASE_URL]) /\
     List.length urls = 3) /\
  (get_num_titles (search_site "1-100 of 100 titles.") AMERICAN_BASE_URL []
     = (Ok 100%Z, [AMERICAN_BASE_URL]) /\
   exists urls,
     get_search_urls (search_site "1-100 of 100 titles.")
       AMERICAN_BASE_URL AMERICAN_NEXT_URL [] = (Ok urls, [AMERICAN_BASE_URL]) /\
     List.length urls = 2).
Proof.
  split.
  - assert (H : get_num_titles (search_site "1-100 of 250 titles.") JAPAN_BASE_URL []
                = (Ok 250%Z, [JAPAN_BASE_URL])) by reflexivity.
    split; [exact H|].
    destruct (search_urls_for_250_and_100 _ _ JAPAN_NEXT_URL _ _ _ H) as (urls & E & L & _).
    exists urls. split; [exact E|exact (L eq_refl)].
  - assert (H : get_num_titles (search_site "1-100 of 100 titles.") AMERICAN_BASE_URL []
                = (Ok 100%Z, [AMERICAN_BASE_URL])) by reflexivity.
    split; [exact H|].
    destruct (search_urls_for_250_and_100 _ _ AMERICAN_NEXT_URL _ _ _ H) as (urls & E & _ & L).
    exists urls. split; [exact E|exact (L eq_refl)].
Defined.


Lemma offset_is_not_101 i : (0 <= i)%Z -> str (201 + 100 * i) <> "101".
Proof.
  intros Hi E. change "101" with (str 101) in E. apply str_inj in E. lia.
Qed.

(** C10. Each URL past the two given ones is the second URL in which
    [replace] has put the new offset for "101" wherever "101" occurs. With
    the second URL cut at its first "101", the replacement goes on in what
    follows it; the URL built is the one with that single "101" replaced
    exactly when no "101" occurs in what follows. *)
Theorem additional_urls_replace_every_101 page base_url next_url log T log' :
  get_num_titles page base_url log = (Ok T, log') ->
  exists urls,
    get_search_urls page base_url next_url log = (Ok urls, log') /\
    forall k, (Z.of_nat k < T / 100 - 1)%Z ->
      let offset := str (201 + 100 * Z.of_nat k) in
      nth_error urls (2 + k) = Some (replace "101" offset next_url) /\
      forall before after,
        next_url = before ++ "101" ++ after ->
        contains "101" (before ++ "10") = false ->
        replace "101" offset next_url
          = before ++ offset ++ replace "101" offset after /\
        (replace "101" offset next_url = before ++ offset ++ after
         <-> contains "101" after = false).
Proof.
  intros H. eexists. split; [exact (get_search_urls_spec _ _ _ _ _ _ H)|].
  intros k Hk offset. split.
  - change (2 + k) with (List.length [base_url; next_url] + k).
    rewrite nth_error_app2, Nat.add_comm, Nat.add_sub by lia.
    rewrite nth_error_map, nth_error_range by assumption. reflexivity.
  - intros before after -> Hb.
    assert (Hold : "101" <> "") by discriminate.
    assert (E : replace "101" offset (before ++ "101" ++ after)
                = before ++ offset ++ replace "101" offset after).
    { rewrite replace_keep by (assumption || exact Hb).
      now rewrite replace_occurrence. }
    split; [exact E|]. rewrite E. split.
    + intros Heq. apply append_inv_head in Heq. apply append_inv_head in Heq.
      destruct (contains "101" after) eqn:C; [|reflexivity].
      exfalso. revert Heq. apply replace_present; try assumption.
      apply offset_is_not_101. lia.
    + intros C. now rewrite replace_absent.
Qed.

(** A second URL with "101" in its path as well: both are replaced. *)
Example two_offsets_replaced :
  fst (get_search_urls (search_site "1-100 of 250 titles.")
         "https://www.imdb.com/list/ls101/" "https://www.imdb.com/list/ls101/?start=101" [])
  = Ok ["https://www.imdb.com/list/ls101/";
        "https://www.imdb.com/list/ls101/?start=101";
        "https://www.imdb.com/list/ls201/?start=201"].
Proof. reflexivity. Qed.

Lemma additional_urls_replace_every_101_witness :
  get_num_titles (search_site "1-100 of 250 titles.") JAPAN_BASE_URL []
    = (Ok 250%Z, [JAPAN_BASE_URL]) /\
  exists urls,
    get_search_urls (search_site "1-100 of 250 titles.")
      JAPAN_BASE_URL JAPAN_NEXT_URL [] = (Ok urls, [JAPAN_BASE_URL]) /\
    nth_error urls 2 = Some (replace "101" "201" JAPAN_NEXT_URL) /\
    replace "101" "201" JAPAN_NEXT_URL =
      "https://www.imdb.com/search/title/?title_type=feature&release_date=," ++
      "2020-07-01&genres=animation&countries=jp&view=simple&sort=release_date," ++
      "desc&count=100&start=" ++ "201" ++ "&ref_=adv_nxt".
Proof.
  assert (H : get_num_titles (search_site "1-100 of 250 titles.") JAPAN_BASE_URL []
              = (Ok 250%Z, [JAPAN_BASE_URL])) by reflexivity.
  split; [exact H|].
  destruct (additional_urls_replace_every_101 _ _ JAPAN_NEXT_URL _ _ _ H)
    as (urls & E & N).
  exists urls. split; [exact E|].
  destruct (N 0 eq_refl) as [Hn Hr]. split; [exact Hn|].
  exact (proj2 (proj2 (Hr
    ("https://www.imdb.com/search/title/?title_type=feature&release_date=," ++
     "2020-07-01&genres=animation&countries=jp&view=simple&sort=release_date," ++
     "desc&count=100&start=") "&ref_=adv_nxt" eq_refl eq_refl)) eq_refl).
Defined.


(** ** The budget *)

Lemma get_budget_of_block (pyfloat : Type)
    (convert : string -> string -> Z -> datetime -> Result pyfloat)
    soup label parent block :
  find soup (with_text "Budget:") = Some label ->
  findParent label = Some parent ->
  findParent parent = Some block ->
  get_budget convert soup =
  let budget := clean_budget (strip (text (node block))) in
  if contains "$" budget
  then (dollars <- dollars_to_int budget ;; Ok (VInt dollars))%result
  else (dollars <- fx_to_dollars_int convert budget ;; Ok (VFloat dollars))%result.
Proof.
  intros Hf Hp Hb. unfold get_budget. rewrite Hf, Hp. cbn [attr_of bind].
  now rewrite Hb.
Qed.

(** C7, as the specification words it, fails: in "Budget:$1,234,567
    (estimated)" a space, not a newline, precedes "(estimated)", the
    decoration stays, and [int] raises. *)
Lemma budget_with_decoration_on_the_line :
  ~ budget_of_block fixed_rate "Budget:$1,234,567 (estimated)" (Ok (VInt 1234567)).
Proof.
  intros H.
  assert (F : exists label parent block,
             find (budget_page "$1,234,567 (estimated)") (with_text "Budget:") = Some label /\
             findParent label = Some parent /\ findParent parent = Some block /\
             strip (text (node block)) = "Budget:$1,234,567 (estimated)")
    by (eexists _, _, _; repeat split; reflexivity).
  destruct F as (label & parent & block & F & P & B & T).
  specialize (H _ _ _ _ F P B T). vm_compute in H. discriminate H.
Qed.

(** C7, amended. For the enclosing-block text "Budget:$1,234,567" followed
    by a newline and the decoration "(estimated)" the extractor returns the
    integer 1234567; for the text "Budget:JPY500000000" it returns what the
    converter gives for 500000000 JPY in USD on 10 July 2020. *)
Theorem budget_normalization (pyfloat : Type)
    (convert : string -> string -> Z -> datetime -> Result pyfloat) :
  budget_of_block convert
    ("Budget:$1,234,567" ++ String nl "            (estimated)")
    (Ok (VInt 1234567)) /\
  budget_of_block convert "Budget:JPY500000000"
    (dollars <- convert "JPY" "USD" 500000000%Z (datetime_ymd 2020 7 10) ;;
     Ok (VFloat dollars))%result.
Proof.
  split; intros soup label parent block Hf Hp Hb Ht;
    rewrite (get_budget_of_block _ _ _ _ _ _ Hf Hp Hb), Ht; reflexivity.
Qed.

Lemma budget_normalization_witness :
  get_budget fixed_rate
    (budget_page ("$1,234,567" ++ String nl "            (estimated)" ++ String nl "        "))
    = Ok (VInt 1234567) /\
  get_budget fixed_rate (budget_page "JPY500000000") = Ok (VFloat 4672897%Z).
Proof.
  split.
  - eapply (proj1 (budget_normalization Z fixed_rate)); reflexivity.
  - eapply (proj2 (budget_normalization Z fixed_rate)); reflexivity.
Defined.


(** * The rest of the module *)

(** ** Commas, words and blanks *)

Lemma replace_char_with_nothing c s :
  replace (String c "") "" s = keep_chars (fun x => negb (x =? c)%char) s.
Proof.
  induction s as [|x r IH]; [reflexivity|].
  rewrite replace_cons by discriminate. cbn [prefix keep_chars].
  destruct (ascii_dec c x) as [->|N].
  - rewrite Ascii.eqb_refl. cbn [negb]. destruct r; cbn; exact IH.
  - apply Ascii.eqb_neq in N. rewrite Ascii.eqb_sym, N. cbn [negb]. now rewrite IH.
Qed.

Lemma contains_char_keep c s :
  contains (String c "") (keep_chars (fun x => negb (x =? c)%char) s) = false.
Proof.
  induction s as [|x r IH]; [reflexivity|]. cbn [keep_chars].
  destruct (Ascii.eqb_spec x c) as [->|N]; cbn [negb]; [exact IH|].
  cbn [contains prefix]. rewrite IH.
  destruct (ascii_dec c x) as [->|_]; [congruence|reflexivity].
Qed.

Lemma keep_chars_twice p s : keep_chars p (keep_chars p s) = keep_chars p s.
Proof.
  induction s as [|x r IH]; [reflexivity|]. cbn [keep_chars].
  destruct (p x) eqn:E; [|exact IH]. cbn [keep_chars]. now rewrite E, IH.
Qed.

(** [remove_commas] keeps the characters that are not commas, in their
    order: no comma is left, and a second pass changes nothing. *)
Theorem remove_commas_keeps_the_rest s :
  remove_commas s = keep_chars not_comma s /\
  contains "," (remove_commas s) = false /\
  remove_commas (remove_commas s) = remove_commas s.
Proof.
  unfold remove_commas.
  rewrite !(replace_char_with_nothing ","%char).
  split; [reflexivity|]. split.
  - apply contains_char_keep.
  - apply keep_chars_twice.
Qed.

Lemma forallb_str_app p a : forall b,
  forallb_str p (a ++ b) = forallb_str p a && forallb_str p b.
Proof.
  induction a as [|c a IH]; intros b; simpl; [reflexivity|].
  now rewrite IH, andb_assoc.
Qed.

Lemma split_from_words s : forall tok word,
  forallb_str not_space tok = true ->
  In word (split_from tok s) ->
  word <> "" /\ forallb_str not_space word = true.
Proof.
  induction s as [|c r IH]; intros tok word Ht; cbn [split_from].
  - destruct tok; [intros []|]. intros [<-|[]]. split; [discriminate|exact Ht].
  - destruct (is_space c) eqn:E.
    + destruct tok.
      * apply IH. reflexivity.
      * intros [<-|H]; [split; [discriminate|exact Ht]|].
        revert H. apply IH. reflexivity.
    + apply IH. rewrite forallb_str_app, Ht. cbn. unfold not_space. now rewrite E.
Qed.

(** The words [split] gives are not empty and hold no blank. *)
Lemma split_words s word :
  In word (split s) -> word <> "" /\ forallb_str not_space word = true.
Proof. apply split_from_words. reflexivity. Qed.

Lemma lstrip_blank s : forallb_str is_space s = true -> lstrip s = "".
Proof.
  induction s as [|c r IH]; [reflexivity|]. cbn.
  destruct (is_space c); [exact IH|discriminate].
Qed.

Lemma split_blank s : forallb_str is_space s = true -> split (strip s) = [].
Proof. intros H. unfold strip. now rewrite lstrip_blank. Qed.


(** ** The rating, again *)

(** Whatever [get_mpaa_rating] returns is None or one of nine strings:
    the entries of [ratings] but "TV-Y7 FV", which holds a blank and so is
    never the first word of a text. "TV-14" and "TV-MA" are not among
    them. *)
Theorem mpaa_rating_closed_set (pyfloat : Type) soup (v : Value pyfloat) :
  get_mpaa_rating pyfloat soup = Ok v ->
  v = VNone \/
  exists rating, v = VStr rating /\
    In rating ["G"; "PG"; "PG-13"; "R"; "TV-Y"; "TV-Y7"; "TV-G"; "TV-PG"; "TV-14TV-MA"].
Proof.
  unfold get_mpaa_rating.
  destruct (find soup _) as [subtext|]; [|intros [= <-]; now left].
  destruct (split (strip (text (node subtext)))) as [|rating rest] eqn:S;
    [discriminate|].
  rewrite subscript_head. cbn [bind].
  destruct (existsb (String.eqb rating) ratings) eqn:E; intros [= <-]; [|now left].
  right. exists rating. split; [reflexivity|].
  apply ratings_accepted in E.
  assert (W : forallb_str not_space rating = true).
  { apply (split_words (strip (text (node subtext)))). rewrite S. now left. }
  simpl in E. simpl.
  repeat (destruct E as [E|E]; [try (subst rating; discriminate W); tauto|]).
  destruct E.
Qed.

Lemma mpaa_rating_closed_set_witness :
  get_mpaa_rating Z (html [subtext_block "PG-13 | 1h 30min"]) = Ok (VStr "PG-13") /\
  (@VStr Z "PG-13" = VNone \/
   exists rating, @VStr Z "PG-13" = VStr rating /\
     In rating ["G"; "PG"; "PG-13"; "R"; "TV-Y"; "TV-Y7"; "TV-G"; "TV-PG"; "TV-14TV-MA"]).
Proof.
  split; [reflexivity|].
  exact (mpaa_rating_closed_set Z (html [subtext_block "PG-13 | 1h 30min"]) _ eq_refl).
Defined.

(** A subtext block that holds only blanks, or nothing, has no first word:
    the subscript raises, the extractor does not return None. *)
Theorem mpaa_rating_blank_subtext (pyfloat : Type) soup subtext :
  find soup (fun n => named "div" n && class_ "subtext" n) = Some subtext ->
  forallb_str is_space (text (node subtext)) = true ->
  get_mpaa_rating pyfloat soup = Raise IndexError.
Proof.
  intros Hf Hb. unfold get_mpaa_rating. now rewrite Hf, split_blank.
Qed.

Lemma mpaa_rating_blank_subtext_witness :
  get_mpaa_rating Z (html [subtext_block "   "]) = Raise IndexError /\
  get_mpaa_rating Z (html [Tag "div" [("class", "subtext")] []]) = Raise IndexError.
Proof.
  split.
  - eapply (mpaa_rating_blank_subtext Z); cbv; reflexivity.
  - eapply (mpaa_rating_blank_subtext Z); cbv; reflexivity.
Defined.

(** ** The country, again *)

Lemma first_marker_naming_a_country_values (pyfloat : Type) markers :
  let v := @first_marker_naming_a_country pyfloat markers in
  v = VNone \/ v = VStr "Japan" \/ v = VStr "USA" \/ v = VStr "Japan, USA".
Proof.
  induction markers as [|raw_text later IH]; cbn; [now left|].
  unfold country_in.
  destruct (contains "Japan" raw_text), (contains "USA" raw_text); cbn; tauto.
Qed.

(** [get_country] never raises, and what it returns is None, "Japan", "USA"
    or "Japan, USA". *)
Theorem country_closed_set (pyfloat : Type) soup :
  exists v, get_country pyfloat soup = Ok v /\
    (v = VNone \/ v = VStr "Japan" \/ v = VStr "USA" \/ v = VStr "Japan, USA").
Proof.
  eexists. split.
  - unfold get_country. apply get_country_loop_spec.
    apply Forall_forall. intros e H. apply descendants_have_parent with (soup := soup).
    unfold find_all in H. now apply filter_In in H as [H _].
  - apply first_marker_naming_a_country_values.
Qed.

(** ** The runtime and the gross *)

Lemma get_runtime_loop_skip (pyfloat : Type) skipped : forall elements,
  Forall (fun e => in_contents "Runtime:" e = false) skipped ->
  get_runtime_loop pyfloat (skipped ++ elements) = get_runtime_loop pyfloat elements.
Proof.
  induction skipped as [|e l IH]; intros elements H; [reflexivity|].
  inversion H as [|? ? He Hl]; subst. cbn. rewrite He. now apply IH.
Qed.

(** The runtime is decided by the first heading marker that holds
    "Runtime:": what comes after it on the page is not looked at, whether
    the marker gives a number or makes the extractor raise. *)
Theorem runtime_from_first_marker (pyfloat : Type) soup skipped element later :
  find_all soup (named "h4") = (skipped ++ element :: later)%list ->
  Forall (fun e => in_contents "Runtime:" e = false) skipped ->
  in_contents "Runtime:" element = true ->
  get_runtime pyfloat soup = get_runtime_loop pyfloat [element].
Proof.
  intros Hf Hs He. unfold get_runtime.
  rewrite Hf, get_runtime_loop_skip by assumption.
  cbn. now rewrite He.
Qed.

Lemma runtime_from_first_marker_witness :
  get_runtime Z (html [country_block "Japan"; runtime_block "Unknown"; runtime_block "90 min"])
    = Raise ValueError /\
  get_runtime Z (html [country_block "Japan"; runtime_block "90 min"; runtime_block "Unknown"])
    = Ok (VInt 90).
Proof.
  split.
  - erewrite (runtime_from_first_marker Z _ [_]);
      [|cbv; reflexivity|repeat constructor|reflexivity]; reflexivity.
  - erewrite (runtime_from_first_marker Z _ [_]);
      [|cbv; reflexivity|repeat constructor|reflexivity]; reflexivity.
Defined.

Lemma get_global_gross_loop_skip (pyfloat : Type) skipped : forall elements,
  Forall (fun e => in_contents "Cumulative Worldwide Gross:" e = false) skipped ->
  get_global_gross_loop pyfloat (skipped ++ elements)
  = get_global_gross_loop pyfloat elements.
Proof.
  induction skipped as [|e l IH]; intros elements H; [reflexivity|].
  inversion H as [|? ? He Hl]; subst. cbn. rewrite He. now apply IH.
Qed.

(** The same holds of the gross and its marker "Cumulative Worldwide
    Gross:". *)
Theorem global_gross_from_first_marker (pyfloat : Type) soup skipped element later :
  find_all soup (named "h4") = (skipped ++ element :: later)%list ->
  Forall (fun e => in_contents "Cumulative Worldwide Gross:" e = false) skipped ->
  in_contents "Cumulative Worldwide Gross:" element = true ->
  get_global_gross pyfloat soup = get_global_gross_loop pyfloat [element].
Proof.
  intros Hf Hs He. unfold get_global_gross.
  rewrite Hf, get_global_gross_loop_skip by assumption.
  cbn. now rewrite He.
Qed.

Lemma global_gross_from_first_marker_witness :
  get_global_gross Z (html [gross_block "$1,234,567"; gross_block "none"])
    = Ok (VInt 1234567).
Proof.
  erewrite (global_gross_from_first_marker Z _ []);
    [|cbv; reflexivity|repeat constructor|reflexivity]; reflexivity.
Defined.


(** ** The search pages, again *)

(** [get_num_titles] and [get_search_urls] request the first search page,
    once, and no other page: neither the second URL nor any URL they build
    is fetched, whether they return or raise. *)
Theorem search_urls_request_first_page_only page base_url next_url log :
  snd (get_num_titles page base_url log) = (log ++ [base_url])%list /\
  snd (get_search_urls page base_url next_url log) = (log ++ [base_url])%list.
Proof.
  assert (N : snd (get_num_titles page base_url log) = (log ++ [base_url])%list).
  { unfold get_num_titles, bindC, create_soup, lift.
    destruct (page base_url); reflexivity. }
  split; [exact N|].
  unfold get_search_urls, bindC, ret.
  destruct (get_num_titles page base_url log) as [[T|e] log']; exact N.
Qed.

Lemma get_num_titles_preceding_witness :
  get_num_titles (search_site "1-100 of 1,400 titles.") JAPAN_BASE_URL []
  = (Ok 1400%Z, [JAPAN_BASE_URL]).
Proof.
  exact (get_num_titles_preceding (search_site "1-100 of 1,400 titles.")
           JAPAN_BASE_URL [] _ ["1-100"; "of"] "1,400" []
           eq_refl eq_refl ltac:(cbv; intuition discriminate)).
Defined.

Lemma get_num_titles_absent_witness :
  get_num_titles (search_site "No results.") JAPAN_BASE_URL []
  = (Raise ValueError, [JAPAN_BASE_URL]).
Proof.
  exact (get_num_titles_absent (search_site "No results.")
           JAPAN_BASE_URL [] _ ["No"; "results."]
           eq_refl eq_refl ltac:(cbv; intuition discriminate)).
Defined.

(** A first page without a [div] of class [desc] makes [get_num_titles]
    raise AttributeError: [find] gives None and [findNext] is asked of
    it. *)
Theorem get_num_titles_without_description page base_url log soup :
  page base_url = Ok soup ->
  find soup (fun n => named "div" n && class_ "desc" n) = None ->
  get_num_titles page base_url log = (Raise AttributeError, (log ++ [base_url])%list).
Proof.
  intros Hp Hf. unfold get_num_titles, bindC, create_soup, lift, mini_header_of.
  now rewrite Hp, Hf.
Qed.

Lemma get_num_titles_without_description_witness :
  get_num_titles (fun _ => Ok (html [])) JAPAN_BASE_URL []
  = (Raise AttributeError, [JAPAN_BASE_URL]).
Proof.
  exact (get_num_titles_without_description (fun _ => Ok (html []))
           JAPAN_BASE_URL [] _ eq_refl eq_refl).
Defined.

(** Below 200 titles, zero and negative counts among them, the loop does
    not run and exactly the two given URLs are returned. *)
Theorem search_urls_below_200_titles page base_url next_url log T log' :
  get_num_titles page base_url log = (Ok T, log') ->
  (T < 200)%Z ->
  get_search_urls page base_url next_url log = (Ok [base_url; next_url], log').
Proof.
  intros H HT. rewrite (get_search_urls_spec _ _ _ _ _ _ H).
  assert (T / 100 - 1 <= 0)%Z.
  { assert (T / 100 < 2)%Z by (apply Z.div_lt_upper_bound; lia). lia. }
  unfold range. destruct (Z.to_nat (T / 100 - 1)) eqn:E; [reflexivity|lia].
Qed.

Lemma search_urls_below_200_titles_witness :
  get_search_urls (search_site "1-50 of 50 titles.") JAPAN_BASE_URL JAPAN_NEXT_URL []
    = (Ok [JAPAN_BASE_URL; JAPAN_NEXT_URL], [JAPAN_BASE_URL]) /\
  get_search_urls (search_site "of -300 titles.") JAPAN_BASE_URL JAPAN_NEXT_URL []
    = (Ok [JAPAN_BASE_URL; JAPAN_NEXT_URL], [JAPAN_BASE_URL]).
Proof.
  split.
  - exact (search_urls_below_200_titles (search_site "1-50 of 50 titles.")
             JAPAN_BASE_URL JAPAN_NEXT_URL [] 50 _ eq_refl eq_refl).
  - exact (search_urls_below_200_titles (search_site "of -300 titles.")
             JAPAN_BASE_URL JAPAN_NEXT_URL [] (-300) _ eq_refl eq_refl).
Defined.

Lemma additional_urls_count_witness :
  exists urls,
    get_search_urls (search_site "1-100 of 1,450 titles.")
      JAPAN_BASE_URL JAPAN_NEXT_URL [] = (Ok urls, [JAPAN_BASE_URL]) /\
    List.length urls = 15.
Proof.
  exact (additional_urls_count (search_site "1-100 of 1,450 titles.")
           JAPAN_BASE_URL JAPAN_NEXT_URL [] 1450 [JAPAN_BASE_URL] eq_refl).
Defined.

Lemma map_constant {A B : Type} (b : B) (f : A -> B) l :
  (forall a, f a = b) -> map f l = repeat b (List.length l).
Proof.
  intros H. induction l as [|a l IH]; simpl; [reflexivity|]. now rewrite H, IH.
Qed.

(** When "101" does not occur in the second URL, nothing is replaced: every
    further URL is the second URL again. *)
Theorem second_url_without_101 page base_url next_url log T log' :
  get_num_titles page base_url log = (Ok T, log') ->
  contains "101" next_url = false ->
  get_search_urls page base_url next_url log =
  (Ok ([base_url; next_url] ++ repeat next_url (Z.to_nat (T / 100 - 1)))%list, log').
Proof.
  intros H Hc. rewrite (get_search_urls_spec _ _ _ _ _ _ H).
  rewrite (map_constant next_url), range_length; [reflexivity|].
  intros i. now apply replace_absent.
Qed.

Lemma second_url_without_101_witness :
  get_search_urls (search_site "1-100 of 350 titles.")
    AMERICAN_BASE_URL "https://www.imdb.com/search/title/?start=201" []
  = (Ok [AMERICAN_BASE_URL;
         "https://www.imdb.com/search/title/?start=201";
         "https://www.imdb.com/search/title/?start=201";
         "https://www.imdb.com/search/title/?start=201"],
     [AMERICAN_BASE_URL]).
Proof.
  exact (second_url_without_101 (search_site "1-100 of 350 titles.")
           AMERICAN_BASE_URL "https://www.imdb.com/search/title/?start=201" [] 350 _
           eq_refl eq_refl).
Defined.


(** ** One movie's dict, again *)

Ltac crawl_goal :=
  repeat match goal with
  | |- context [match ?r with Ok _ => _ | Raise _ => _ end] => destruct r; cbv beta iota
  | |- context [let '(_, _) := ?p in _] => destruct p; cbv beta iota
  end.

(** The outcome of [get_movie_dict] does not depend on the requests made
    before it, which it leaves in place. *)
Lemma get_movie_dict_log (pyfloat : Type) float dateutil_parse convert page link log :
  @get_movie_dict pyfloat float dateutil_parse convert page link log =
  (fst (get_movie_dict float dateutil_parse convert page link []),
   (log ++ snd (get_movie_dict float dateutil_parse convert page link []))%list).
Proof.
  unfold get_movie_dict, bindC, lift, create_soup, ret.
  crawl_goal; cbn [fst snd app]; rewrite <- ?app_assoc; reflexivity.
Qed.

(** A dict is returned exactly when both pages are fetched and each of the
    fourteen extractors returns; the dict then has the fourteen keys of
    [headers], in that order, each with the value of its own extractor, and
    the two pages have been requested. *)
Theorem movie_dict_returned (pyfloat : Type) float dateutil_parse convert page
    link log (d : Dict pyfloat) log' :
  get_movie_dict float dateutil_parse convert page link log = (Ok d, log') <->
  exists soup release_info_soup values,
    page ("https://www.imdb.com" ++ link) = Ok soup /\
    page (("https://www.imdb.com" ++ link) ++ "releaseinfo") = Ok release_info_soup /\
    extracted float dateutil_parse convert soup release_info_soup = map Ok values /\
    d = combine headers values /\
    log' = (log ++ movie_urls link)%list.
Proof.
  split.
  - intros H. unfold get_movie_dict, bindC, lift, create_soup, ret in H.
    repeat crawl_step H; try discriminate H.
    injection H as <- <-.
    eexists _, _, [_; _; _; _; _; _; _; _; _; _; _; _; _; _].
    do 2 (split; [reflexivity|]).
    split; [|split; [reflexivity|now rewrite <- app_assoc]].
    unfold extracted. cbn [map].
    rewrite E0, E1, E2, E3, E4, E5, E8, E9, E10, E11, E12, E13.
    destruct (is_str _ "Japan"); [|destruct (is_str _ "USA")].
    + destruct (get_japan_release_date _ _ _); [|discriminate].
      now injection E7 as -> ->.
    + destruct (get_usa_release_date _ _); [|discriminate].
      now injection E7 as -> ->.
    + now injection E7 as -> ->.
  - intros (soup & ris & values & Hp & Hr & Hv & -> & ->).
    unfold extracted in Hv.
    do 14 (destruct values as [|? values]; [discriminate Hv|]).
    destruct values; [|discriminate Hv].
    cbn [map] in Hv.
    injection Hv as H1 H2 H3 H4 H5 H6 H7 H8 H9 H10 H11 H12 H13 H14.
    unfold get_movie_dict, bindC, lift, create_soup, ret, movie_urls.
    rewrite Hp, H1, H2, H3, H4, H5, H6, Hr. rewrite H2 in H7, H8.
    rewrite H9, H10, H11, H12, H13, H14.
    rewrite <- app_assoc. cbn [app].
    destruct (is_str _ "Japan"); [|destruct (is_str _ "USA")].
    + rewrite H7. now injection H8 as <-.
    + rewrite H8. now injection H7 as <-.
    + injection H7 as <-. now injection H8 as <-.
Qed.

Lemma movie_dict_returned_witness :
  get_movie_dict no_float one_date fixed_rate
    (one_movie japanese_movie japanese_release_info) "/title/tt0000001/" []
  = (Ok japanese_dict, ([] ++ movie_urls "/title/tt0000001/")%list) /\
  map fst japanese_dict = headers.
Proof.
  split; [|reflexivity].
  apply (proj2 (movie_dict_returned Z no_float one_date fixed_rate
                  (one_movie japanese_movie japanese_release_info)
                  "/title/tt0000001/" [] japanese_dict _)).
  exists japanese_movie, japanese_release_info, (map snd japanese_dict).
  repeat split; reflexivity.
Defined.

(** [get_movie_dict] requests the movie's page and, at most, its
    release-info page after it, no other URL; when the movie's page cannot
    be fetched the error is raised and the release-info page is not
    requested. *)
Theorem movie_dict_requests (pyfloat : Type) float dateutil_parse convert page link log :
  let run := @get_movie_dict pyfloat float dateutil_parse convert page link log in
  let url := "https://www.imdb.com" ++ link in
  (snd run = (log ++ [url])%list \/ snd run = (log ++ movie_urls link)%list) /\
  (forall e, page url = Raise e -> run = (Raise e, (log ++ [url])%list)).
Proof.
  cbv zeta. split.
  - unfold get_movie_dict, bindC, lift, create_soup, ret, movie_urls.
    crawl_goal; cbn [snd]; rewrite <- ?app_assoc; cbn [app]; tauto.
  - intros e H. unfold get_movie_dict, bindC, lift, create_soup, ret.
    now rewrite H.
Qed.


(** ** Several pages at once *)

Lemma create_soups_cons page url rest log :
  create_soups page (url :: rest) log =
  match page url with
  | Ok soup =>
      match create_soups page rest (log ++ [url])%list with
      | (Ok soups, log') => (Ok (soup :: soups), log')
      | (Raise e, log') => (Raise e, log')
      end
  | Raise e => (Raise e, (log ++ [url])%list)
  end.
Proof.
  cbn [create_soups]. unfold bindC, ret. destruct (page url); [|reflexivity].
  now destruct (create_soups page rest (log ++ [url])%list) as [[soups|e] log'].
Qed.

(** [create_soups] returns exactly when every URL can be fetched: it then
    gives the page of each URL, in the order of the URLs, and has requested
    each URL once, in that order. *)
Theorem create_soups_returned page urls : forall soups log log',
  create_soups page urls log = (Ok soups, log') <->
  Forall2 (fun url soup => page url = Ok soup) urls soups /\
  log' = (log ++ urls)%list.
Proof.
  induction urls as [|url rest IH]; intros soups log log'.
  - cbn. unfold ret. rewrite List.app_nil_r. split.
    + intros [= <- <-]. split; [constructor|reflexivity].
    + intros [H ->]. inversion H. reflexivity.
  - rewrite create_soups_cons. split.
    + destruct (page url) as [soup|e] eqn:Hp; [|discriminate].
      destruct (create_soups page rest (log ++ [url])%list) as [[ss|e] l] eqn:Hr;
        [|discriminate].
      intros [= <- <-]. apply IH in Hr as [Hf ->].
      split; [now constructor|]. now rewrite <- app_assoc.
    + intros [H ->]. inversion H as [|? soup ? ss Hp Hf]; subst.
      rewrite Hp.
      assert (Hr : create_soups page rest (log ++ [url])%list
                   = (Ok ss, ((log ++ [url]) ++ rest)%list))
        by (apply IH; now split).
      rewrite Hr. now rewrite <- app_assoc.
Qed.

Lemma create_soups_returned_witness :
  create_soups two_pages ["page1"; "page2"] []
  = (Ok [lister_page ["/title/tt0000001/"; "/title/tt0000002/"];
         lister_page ["/title/tt0000003/"]],
     ["page1"; "page2"]).
Proof.
  apply (proj2 (create_soups_returned two_pages ["page1"; "page2"] _ [] _)).
  split; [repeat constructor|reflexivity].
Defined.

(** [create_soups] stops at the first URL that cannot be fetched: the error
    is raised, the pages fetched before are lost and the URLs after it are
    not requested. *)
Theorem create_soups_first_failure page before url after e : forall soups log,
  Forall2 (fun url soup => page url = Ok soup) before soups ->
  page url = Raise e ->
  create_soups page (before ++ url :: after) log
  = (Raise e, (log ++ before ++ [url])%list).
Proof.
  induction before as [|u l IH]; intros soups log Hf He.
  - cbn [app]. rewrite create_soups_cons. now rewrite He.
  - inversion Hf as [|? soup ? ss Hp Hl]; subst.
    cbn [app]. rewrite create_soups_cons, Hp, (IH ss) by assumption.
    now rewrite <- app_assoc.
Qed.

Lemma create_soups_first_failure_witness :
  create_soups two_pages ["page1"; "page3"; "page2"] []
  = (Raise (ExternalError "ConnectionError"), ["page1"; "page3"]).
Proof.
  exact (create_soups_first_failure two_pages ["page1"] "page3" ["page2"] _ _ []
           ltac:(repeat constructor) eq_refl).
Defined.

(** ** The links of the search pages *)

Lemma title_hrefs_error spans e :
  title_hrefs spans = Raise e -> e = AttributeError.
Proof.
  induction spans as [|s l IH]; cbn; [discriminate|].
  destruct (find (node s) (named "a")); cbn; [|now intros [= <-]].
  destruct (title_hrefs l); cbn; [discriminate|].
  intros [= <-]. now apply IH.
Qed.

(** The only exception [get_title_urls] raises is AttributeError. *)
Lemma get_title_urls_error soups e :
  get_title_urls soups = Raise e -> e = AttributeError.
Proof.
  induction soups as [|s l IH]; cbn; [discriminate|].
  destruct (find s _); cbn; [|now intros [= <-]].
  destruct (title_hrefs _) eqn:T; cbn; [|intros [= <-]; eapply title_hrefs_error, T].
  destruct (get_title_urls l); cbn; [discriminate|].
  intros [= <-]. now apply IH.
Qed.

(** The links of several pages are the links of the first pages followed by
    the links of the others; an error in the first pages is raised before
    the others are looked at. *)
Theorem get_title_urls_app first : forall others,
  get_title_urls (first ++ others) =
  (links <- get_title_urls first ;;
   more <- get_title_urls others ;;
   Ok (links ++ more)%list)%result.
Proof.
  induction first as [|soup rest IH]; intros others.
  - cbn. now destruct (get_title_urls others).
  - cbn [app get_title_urls].
    destruct (attr_of (find soup _)); cbn [bind]; [|reflexivity].
    destruct (title_hrefs _); cbn [bind]; [|reflexivity].
    rewrite IH.
    destruct (get_title_urls rest); cbn [bind]; [|reflexivity].
    destruct (get_title_urls others); cbn [bind]; [|reflexivity].
    now rewrite app_assoc.
Qed.

(** One page without the list container, wherever it stands among the
    pages, makes [get_title_urls] raise AttributeError: no link of any page
    is returned. *)
Theorem get_title_urls_without_list soups soup :
  In soup soups ->
  find soup (fun n => named "div" n && class_ "lister-list" n) = None ->
  get_title_urls soups = Raise AttributeError.
Proof.
  intros Hin Hf. induction soups as [|s l IH]; [destruct Hin|].
  cbn [get_title_urls]. destruct Hin as [->|Hin]; [now rewrite Hf|].
  destruct (find s _); cbn [attr_of bind]; [|reflexivity].
  destruct (title_hrefs _) eqn:T; cbn [bind].
  - now rewrite IH.
  - f_equal. eapply title_hrefs_error, T.
Qed.

Lemma get_title_urls_without_list_witness :
  get_title_urls [lister_page ["/title/tt0000001/"]; html []; lister_page []]
  = Raise AttributeError.
Proof.
  apply (get_title_urls_without_list _ (html [])); [right; now left|reflexivity].
Defined.

Example get_title_urls_two_pages :
  get_title_urls [lister_page ["/title/tt0000001/"; "/title/tt0000002/"];
                  lister_page ["/title/tt0000003/"]]
  = Ok [Some "/title/tt0000001/"; Some "/title/tt0000002/"; Some "/title/tt0000003/"].
Proof. reflexivity. Qed.


(** The only exception [get_title_urls] raises is AttributeError, for a page
    without the list container or a title span without an anchor. *)
Theorem get_title_urls_raises_attribute_error soups e :
  get_title_urls soups = Raise e -> e = AttributeError.
Proof. apply get_title_urls_error. Qed.

Lemma get_title_urls_raises_attribute_error_witness :
  get_title_urls
    [html [Tag "div" [("class", "lister-list")]
             [Tag "span" [("class", "lister-item-header")] [NavigableString "A title"]]]]
  = Raise AttributeError /\ AttributeError = AttributeError.
Proof.
  split; [reflexivity|].
  exact (get_title_urls_raises_attribute_error
           [html [Tag "div" [("class", "lister-list")]
                    [Tag "span" [("class", "lister-item-header")]
                       [NavigableString "A title"]]]] AttributeError eq_refl).
Defined.

(** ** The frame of all movies *)

Lemma counters_succ first n :
  counters first (S n) = ((first + 1) :: counters (first + 1) n)%Z.
Proof.
  unfold counters. cbn [seq map]. f_equal.
  rewrite <- seq_shift, map_map. apply map_ext. intros k. lia.
Qed.

Lemma get_movie_df_loop_cons (pyfloat : Type) float dateutil_parse convert page
    link rest counter log out :
  @get_movie_df_loop pyfloat float dateutil_parse convert page (link :: rest) counter (log, out) =
  match get_movie_dict float dateutil_parse convert page link log with
  | (Ok movie_dict, log1) =>
      match get_movie_df_loop float dateutil_parse convert page rest (counter + 1)
              (log1, (out ++ [counter + 1]%Z)%list) with
      | (Ok movie_dicts, st) => (Ok (movie_dict :: movie_dicts), st)
      | (Raise e, st) => (Raise e, st)
      end
  | (Raise e, log1) => (Raise e, (log1, out))
  end.
Proof.
  cbn [get_movie_df_loop]. unfold bindR, crawl, print. cbn [fst snd].
  destruct (get_movie_dict _ _ _ _ _ _) as [[d|e] log1]; [|reflexivity].
  cbn [fst snd].
  now destruct (get_movie_df_loop _ _ _ _ _ _ _) as [[ds|e] st].
Qed.

(** What one link gives, whatever was requested before. *)
Lemma get_movie_dict_at (pyfloat : Type) float dateutil_parse convert page link log
    (row : Dict pyfloat) :
  fst (get_movie_dict float dateutil_parse convert page link []) = Ok row <->
  get_movie_dict float dateutil_parse convert page link log
  = (Ok row, (log ++ movie_urls link)%list).
Proof.
  split; intros H.
  - rewrite get_movie_dict_log, H. f_equal. f_equal.
    destruct (get_movie_dict float dateutil_parse convert page link []) as [r l] eqn:E.
    cbn in H. subst r. now apply get_movie_dict_ok in E as [-> _].
  - rewrite get_movie_dict_log in H. now injection H.
Qed.

Lemma get_movie_df_loop_returned (pyfloat : Type) float dateutil_parse convert page links :
  forall (rows : list (Dict pyfloat)) counter log out log' out',
  get_movie_df_loop float dateutil_parse convert page links counter (log, out)
  = (Ok rows, (log', out')) <->
  Forall2 (fun link row =>
             fst (get_movie_dict float dateutil_parse convert page link []) = Ok row)
          links rows /\
  log' = (log ++ flat_map movie_urls links)%list /\
  out' = (out ++ counters counter (List.length links))%list.
Proof.
  induction links as [|link rest IH]; intros rows counter log out log' out'.
  - cbn. rewrite !List.app_nil_r. split.
    + intros [= <- <- <-]. repeat split. constructor.
    + intros (H & -> & ->). now inversion H.
  - rewrite get_movie_df_loop_cons. cbn [flat_map List.length].
    rewrite counters_succ. split.
    + destruct (get_movie_dict _ _ _ _ _ _) as [[d|e] log1] eqn:D; [|discriminate].
      destruct (get_movie_df_loop _ _ _ _ _ _ _) as [[ds|e] st] eqn:L; [|discriminate].
      intros [= <- ->]. apply IH in L as (Hf & -> & ->).
      pose proof D as D'. rewrite get_movie_dict_log in D'.
      injection D' as D1 D2.
      apply get_movie_dict_ok in D as [-> _].
      split; [now constructor|].
      now rewrite <- !app_assoc.
    + intros (H & -> & ->). inversion H as [|? row ? rs Hd Hr]; subst.
      rewrite (proj1 (get_movie_dict_at _ _ _ _ _ _ log _) Hd).
      assert (L : get_movie_df_loop float dateutil_parse convert page rest (counter + 1)
                    ((log ++ movie_urls link)%list, (out ++ [(counter + 1)%Z])%list)
                  = (Ok rs, (((log ++ movie_urls link) ++ flat_map movie_urls rest)%list,
                             ((out ++ [(counter + 1)%Z]) ++
                              counters (counter + 1) (List.length rest))%list)))
        by (apply IH; repeat split; assumption).
      rewrite L. now rewrite <- !app_assoc.
Qed.

(** [get_movie_df] returns exactly when [get_movie_dict] returns for every
    link: the frame then has one row for each link, in the order of the
    links, each the dict of its link; the two pages of each link have been
    requested, link after link, and the counters 1, 2, ... up to the number
    of links have been printed. *)
Theorem movie_df_returned (pyfloat : Type) float dateutil_parse convert page links
    (rows : list (Dict pyfloat)) log out log' out' :
  get_movie_df float dateutil_parse convert page links (log, out)
  = (Ok rows, (log', out')) <->
  Forall2 (fun link row =>
             fst (get_movie_dict float dateutil_parse convert page link []) = Ok row)
          links rows /\
  log' = (log ++ flat_map movie_urls links)%list /\
  out' = (out ++ counters 0 (List.length links))%list.
Proof.
  rewrite <- get_movie_df_loop_returned. unfold get_movie_df, bindR, DataFrame.
  destruct (get_movie_df_loop _ _ _ _ _ _ _) as [[ds|e] st]; split; congruence.
Qed.

Lemma movie_df_returned_witness :
  get_movie_df no_float one_date fixed_rate
    (one_movie japanese_movie japanese_release_info)
    ["/title/tt0000001/"; "/title/tt0000001/"] ([], [])
  = (Ok [japanese_dict; japanese_dict],
     (["https://www.imdb.com/title/tt0000001/";
       "https://www.imdb.com/title/tt0000001/releaseinfo";
       "https://www.imdb.com/title/tt0000001/";
       "https://www.imdb.com/title/tt0000001/releaseinfo"],
      [1; 2]%Z)).
Proof.
  apply (proj2 (movie_df_returned Z no_float one_date fixed_rate
                  (one_movie japanese_movie japanese_release_info)
                  ["/title/tt0000001/"; "/title/tt0000001/"]
                  [japanese_dict; japanese_dict] [] [] _ _)).
  repeat split. repeat constructor.
Defined.

Lemma get_movie_df_loop_first_failure (pyfloat : Type) float dateutil_parse convert page
    before link after e :
  forall (rows : list (Dict pyfloat)) counter log out,
  Forall2 (fun link row =>
             fst (get_movie_dict float dateutil_parse convert page link []) = Ok row)
          before rows ->
  fst (get_movie_dict float dateutil_parse convert page link []) = Raise e ->
  get_movie_df_loop float dateutil_parse convert page (before ++ link :: after) counter (log, out)
  = (Raise e,
     ((log ++ flat_map movie_urls before ++
       snd (get_movie_dict float dateutil_parse convert page link []))%list,
      (out ++ counters counter (List.length before))%list)).
Proof.
  induction before as [|l ls IH]; intros rows counter log out Hf He.
  - cbn [app flat_map List.length]. rewrite get_movie_df_loop_cons.
    rewrite get_movie_dict_log, He. cbn. now rewrite List.app_nil_r.
  - inversion Hf as [|? row ? rs Hd Hr]; subst.
    cbn [app flat_map List.length]. rewrite get_movie_df_loop_cons.
    rewrite (proj1 (get_movie_dict_at _ _ _ _ _ _ log _) Hd).
    rewrite (IH rs) by assumption.
    rewrite counters_succ. now rewrite <- !app_assoc.
Qed.

(** [get_movie_df] stops at the first link for which [get_movie_dict]
    raises: the error is raised and no frame is returned, the rows of the
    links before it are lost though their counters were printed, and
    nothing is requested for the links after it. *)
Theorem movie_df_first_failure (pyfloat : Type) float dateutil_parse convert page
    before link after e (rows : list (Dict pyfloat)) log out :
  Forall2 (fun link row =>
             fst (get_movie_dict float dateutil_parse convert page link []) = Ok row)
          before rows ->
  fst (get_movie_dict float dateutil_parse convert page link []) = Raise e ->
  get_movie_df float dateutil_parse convert page (before ++ link :: after) (log, out)
  = (Raise e,
     ((log ++ flat_map movie_urls before ++
       snd (get_movie_dict float dateutil_parse convert page link []))%list,
      (out ++ counters 0 (List.length before))%list)).
Proof.
  intros Hf He. unfold get_movie_df, bindR.
  now rewrite (get_movie_df_loop_first_failure _ _ _ _ _ _ _ _ e rows) by assumption.
Qed.

Lemma movie_df_first_failure_witness :
  get_movie_df no_float one_date fixed_rate
    (one_movie japanese_movie japanese_release_info)
    ["/title/tt0000001/"; "/title/tt0000009/"; "/title/tt0000001/"] ([], [])
  = (Raise (ExternalError "ConnectionError"),
     (["https://www.imdb.com/title/tt0000001/";
       "https://www.imdb.com/title/tt0000001/releaseinfo";
       "https://www.imdb.com/title/tt0000009/"],
      [1]%Z)).
Proof.
  exact (movie_df_first_failure Z no_float one_date fixed_rate
           (one_movie japanese_movie japanese_release_info)
           ["/title/tt0000001/"] "/title/tt0000009/" ["/title/tt0000001/"]
           (ExternalError "ConnectionError") [japanese_dict] [] []
           ltac:(repeat constructor) eq_refl).
Defined.


(** ** Numbers written and read *)

Lemma int_digits_step acc b c r :
  is_ascii_digit c = true ->
  int_digits acc b (String c r) =
  int_digits (10 * acc + Z.of_nat (nat_of_ascii c - 48)) true r.
Proof. intros H. cbn [int_digits]. now rewrite H. Qed.

Lemma int_digits_uint_acc d : forall p b,
  d <> Decimal.Nil \/ b = true ->
  int_digits (Zpos p) b (NilEmpty.string_of_uint d) = Some (Zpos (Pos.of_uint_acc d p)).
Proof.
  induction d; intros p b H; cbn [NilEmpty.string_of_uint Pos.of_uint_acc];
    try (rewrite int_digits_step by reflexivity;
         match goal with
         | |- int_digits (_ + ?v)%Z true _ = Some (Zpos (Pos.of_uint_acc _ ?q)) =>
             let n := eval vm_compute in v in change v with n;
             replace (10 * Zpos p + n)%Z with (Zpos q) by lia
         end;
         apply IHd; now right).
  destruct H as [H| ->]; [congruence|reflexivity].
Qed.

Lemma int_digits_uint d : forall b,
  d <> Decimal.Nil \/ b = true ->
  int_digits 0 b (NilEmpty.string_of_uint d) = Some (Z.of_N (Pos.of_uint d)).
Proof.
  induction d; intros b H; cbn [NilEmpty.string_of_uint Pos.of_uint];
    try (rewrite int_digits_step by reflexivity;
         first [apply IHd; now right | apply int_digits_uint_acc; now right]).
  destruct H as [H| ->]; [congruence|reflexivity].
Qed.

Lemma forallb_str_impl (p q : ascii -> bool) s :
  (forall c, p c = true -> q c = true) ->
  forallb_str p s = true -> forallb_str q s = true.
Proof.
  intros H. induction s as [|c r IH]; cbn; [reflexivity|].
  intros E. apply andb_true_iff in E as [E1 E2]. now rewrite (H c E1), IH.
Qed.

Lemma digit_not_space c : is_digit_char c = true -> not_space c = true.
Proof. destruct c as [[] [] [] [] [] [] [] []]; try discriminate; reflexivity. Qed.

Lemma ascii_digit_is_digit c : is_ascii_digit c = true -> is_digit_char c = true.
Proof. unfold is_digit_char. now intros ->. Qed.

Lemma lstrip_not_space s : forallb_str not_space s = true -> lstrip s = s.
Proof.
  destruct s as [|c r]; cbn; [reflexivity|]. unfold not_space.
  now destruct (is_space c).
Qed.

Lemma rstrip_not_space s : forallb_str not_space s = true -> rstrip s = s.
Proof.
  induction s as [|c r IH]; cbn; [reflexivity|]. unfold not_space at 1.
  intros E. apply andb_true_iff in E as [E1 E2]. rewrite (IH E2).
  destruct r; [|reflexivity]. now destruct (is_space c).
Qed.

(** A text without blanks is left as it is by [strip]. *)
Lemma strip_not_space s : forallb_str not_space s = true -> strip s = s.
Proof.
  intros H. unfold strip. now rewrite lstrip_not_space, rstrip_not_space.
Qed.

(** The blanks of [int] are blanks of [strip]. *)
Lemma not_space_no_int_space c : not_space c = true -> is_int_space c = false.
Proof. destruct c as [[] [] [] [] [] [] [] []]; try discriminate; reflexivity. Qed.

Lemma int_lstrip_not_space s : forallb_str not_space s = true -> int_lstrip s = s.
Proof.
  destruct s as [|c r]; cbn; [reflexivity|].
  intros E. apply andb_true_iff in E as [E _].
  now rewrite (not_space_no_int_space c E).
Qed.

Lemma int_rstrip_not_space s : forallb_str not_space s = true -> int_rstrip s = s.
Proof.
  induction s as [|c r IH]; cbn; [reflexivity|].
  intros E. apply andb_true_iff in E as [E1 E2]. rewrite (IH E2).
  destruct r; [|reflexivity]. now rewrite (not_space_no_int_space c E1).
Qed.

(** A text without blanks is read by [int] as it is. *)
Lemma int_strip_not_space s : forallb_str not_space s = true -> int_strip s = s.
Proof.
  intros H. unfold int_strip. now rewrite int_lstrip_not_space, int_rstrip_not_space.
Qed.

Lemma uint_digits d : forallb_str is_ascii_digit (NilEmpty.string_of_uint d) = true.
Proof. induction d; cbn; auto. Qed.

(** [int] looks at the first character of the stripped text for a sign. *)
Lemma int_sign s :
  int s =
  match
    match int_strip s with
    | String c r =>
        if (c =? "-")%char then option_map Z.opp (int_digits 0 false r)
        else if (c =? "+")%char then int_digits 0 false r
        else int_digits 0 false (int_strip s)
    | EmptyString => int_digits 0 false (int_strip s)
    end
  with
  | Some n => Ok n
  | None => Raise ValueError
  end.
Proof.
  unfold int. cbv zeta. destruct (int_strip s) as [|c r]; [reflexivity|].
  destruct c as [[] [] [] [] [] [] [] []]; reflexivity.
Qed.

Lemma int_of_uint d :
  d <> Decimal.Nil ->
  int (NilEmpty.string_of_uint d) = Ok (Z.of_N (Pos.of_uint d)) /\
  int (String "-" (NilEmpty.string_of_uint d)) = Ok (- Z.of_N (Pos.of_uint d))%Z.
Proof.
  intros H.
  assert (S : forallb_str not_space (NilEmpty.string_of_uint d) = true).
  { apply forallb_str_impl with (p := is_ascii_digit); [|apply uint_digits].
    intros c E. now apply digit_not_space, ascii_digit_is_digit. }
  pose proof (int_digits_uint d false (or_introl H)) as E.
  split; rewrite int_sign.
  - rewrite int_strip_not_space by assumption.
    destruct d; [congruence|..]; cbn [NilEmpty.string_of_uint] in *;
      match goal with
      | |- context [(?a =? "-")%char] =>
          change (a =? "-")%char with false; change (a =? "+")%char with false
      end; cbv iota; now rewrite E.
  - rewrite int_strip_not_space by (cbn [forallb_str]; now rewrite S).
    change ("-" =? "-")%char with true. cbv iota. now rewrite E.
Qed.

(** Reading back what [str] wrote gives the number. *)
Lemma int_str n : int (str n) = Ok n.
Proof.
  destruct n as [|p|p]; [reflexivity| |];
    unfold str; cbn [Z.to_int NilZero.string_of_int];
    pose proof (DecimalPos.Unsigned.to_uint_nonnil p) as N;
    pose proof (DecimalPos.Unsigned.of_to p) as E;
    unfold NilZero.string_of_uint;
    destruct (Pos.to_uint p) eqn:D; try congruence;
    rewrite <- D in *;
    destruct (int_of_uint (Pos.to_uint p) N) as [H1 H2];
    rewrite ?H1, ?H2, E; reflexivity.
Qed.


Lemma keep_chars_app p a : forall b,
  keep_chars p (a ++ b) = keep_chars p a ++ keep_chars p b.
Proof.
  induction a as [|c a IH]; intros b; cbn; [reflexivity|].
  destruct (p c); cbn; now rewrite IH.
Qed.

Lemma keep_chars_all p s : forallb_str p s = true -> keep_chars p s = s.
Proof.
  induction s as [|c r IH]; cbn; [reflexivity|].
  intros E. apply andb_true_iff in E as [E1 E2]. now rewrite E1, IH.
Qed.

Lemma forallb_str_keep (p q : ascii -> bool) s :
  forallb_str p (keep_chars q s) = true ->
  forallb_str (fun c => p c || negb (q c)) s = true.
Proof.
  induction s as [|c r IH]; cbn; [reflexivity|].
  destruct (q c); cbn.
  - intros E. apply andb_true_iff in E as [E1 E2]. now rewrite E1, IH.
  - rewrite orb_true_r. exact IH.
Qed.

Lemma str_chars n :
  forallb_str (fun c => is_ascii_digit c || (c =? "-")%char) (str n) = true.
Proof.
  assert (D : forall d, forallb_str (fun c => is_ascii_digit c || (c =? "-")%char)
                          (NilZero.string_of_uint d) = true).
  { intros d. apply forallb_str_impl with (p := is_ascii_digit).
    - intros c E. now rewrite E.
    - unfold NilZero.string_of_uint. destruct d; try apply uint_digits. reflexivity. }
  destruct n; unfold str; cbn [Z.to_int NilZero.string_of_int]; [apply D..|].
  cbn [forallb_str]. now rewrite D.
Qed.

(** A number written with commas anywhere among its digits. *)
Lemma amount_chars amount n :
  keep_chars not_comma amount = str n -> forallb_str amount_char amount = true.
Proof.
  intros H. pose proof (str_chars n) as S. rewrite <- H in S.
  apply forallb_str_keep in S. revert S. apply forallb_str_impl.
  intros c. unfold amount_char, not_comma. rewrite negb_involutive. now intros ->.
Qed.

Lemma append_nil_r s : s ++ "" = s.
Proof. induction s as [|c r IH]; cbn; [|rewrite IH]; reflexivity. Qed.

(** Where the first character of [old] does not occur, [replace] changes
    nothing. *)
Lemma replace_head_absent h t new a : forall s,
  forallb_str (fun c => negb (c =? h)%char) a = true ->
  replace (String h t) new (a ++ s) = a ++ replace (String h t) new s.
Proof.
  induction a as [|c a IH]; intros s; cbn [append forallb_str]; [reflexivity|].
  intros E. apply andb_true_iff in E as [E1 E2].
  rewrite replace_cons by discriminate. cbn [prefix].
  destruct (ascii_dec h c) as [->|_]; [now rewrite Ascii.eqb_refl in E1|].
  now rewrite IH.
Qed.

Lemma replace_head_absent_all h t new a :
  forallb_str (fun c => negb (c =? h)%char) a = true ->
  replace (String h t) new a = a.
Proof.
  intros H. rewrite <- (append_nil_r a) at 1.
  rewrite replace_head_absent by assumption.
  now rewrite replace_nil, append_nil_r by discriminate.
Qed.

Lemma amount_char_plain c :
  amount_char c = true ->
  negb (c =? "$")%char = true /\ negb (c =? "C")%char = true /\
  negb (c =? "B")%char = true /\ not_newline c = true.
Proof.
  destruct c as [[] [] [] [] [] [] [] []]; try discriminate; repeat split.
Qed.

(** A dollar sign and an amount with commas, the commas removed and then
    read by [dollars_to_int], give the amount. *)
Lemma dollars_with_commas amount n :
  keep_chars not_comma amount = str n ->
  dollars_to_int (remove_commas ("$" ++ amount)) = Ok n.
Proof.
  intros H. unfold remove_commas, dollars_to_int.
  rewrite (replace_char_with_nothing ","%char), (replace_char_with_nothing "$"%char).
  change (fun x => negb (x =? ",")%char) with not_comma.
  rewrite keep_chars_app, H, keep_chars_app.
  change (keep_chars not_comma "$") with "$".
  change (keep_chars (fun x => negb (x =? "$")%char) "$") with "".
  cbn [append]. rewrite keep_chars_all; [apply int_str|].
  apply forallb_str_impl with (2 := str_chars n).
  intros c. destruct c as [[] [] [] [] [] [] [] []]; try discriminate; reflexivity.
Qed.

(** ** The gross, the rating count and the metascore read back *)

(** When the enclosing text of the first "Cumulative Worldwide Gross:"
    marker is the label, a blank, a dollar sign and a number written with
    commas, the extractor returns the number. *)
Theorem global_gross_reads_amount (pyfloat : Type) soup skipped element later
    parent amount n :
  find_all soup (named "h4") = (skipped ++ element :: later)%list ->
  Forall (fun e => in_contents "Cumulative Worldwide Gross:" e = false) skipped ->
  in_contents "Cumulative Worldwide Gross:" element = true ->
  findParent element = Some parent ->
  strip (text (node parent)) = "Cumulative Worldwide Gross: $" ++ amount ->
  keep_chars not_comma amount = str n ->
  get_global_gross pyfloat soup = Ok (VInt n).
Proof.
  intros Hf Hs He Hp Ht Hn. unfold get_global_gross.
  rewrite Hf, get_global_gross_loop_skip by assumption.
  cbn [get_global_gross_loop]. rewrite He, Hp. cbn [attr_of bind]. rewrite Ht.
  change ("Cumulative Worldwide Gross: $" ++ amount)
    with ("Cumulative Worldwide Gross: " ++ ("$" ++ amount)).
  rewrite replace_occurrence by discriminate. cbn [append].
  rewrite replace_head_absent_all.
  - pose proof (dollars_with_commas amount n Hn) as D. cbn [append] in D.
    now rewrite D.
  - cbn [forallb_str]. change (negb ("$" =? "C")%char) with true. cbn [andb].
    apply forallb_str_impl with (2 := amount_chars _ _ Hn).
    intros c E. now apply amount_char_plain in E.
Qed.

Lemma global_gross_reads_amount_witness :
  get_global_gross Z (html [country_block "Japan"; gross_block "$355,467,076"])
  = Ok (VInt 355467076).
Proof.
  eapply (global_gross_reads_amount Z _ [_] _ _ _ "355,467,076" 355467076);
    [cbv; reflexivity|repeat constructor|reflexivity|reflexivity|reflexivity|reflexivity].
Defined.

(** When the rating-count element holds a number written with commas, the
    extractor returns the number. *)
Theorem user_rating_count_reads_amount (pyfloat : Type) soup span n :
  find soup (with_attr "itemprop" "ratingCount") = Some span ->
  keep_chars not_comma (text (node span)) = str n ->
  get_user_rating_count pyfloat soup = Ok (VInt n).
Proof.
  intros Hf Hn. unfold get_user_rating_count, remove_commas. rewrite Hf.
  rewrite (replace_char_with_nothing ","%char).
  change (fun x => negb (x =? ",")%char) with not_comma.
  now rewrite Hn, int_str.
Qed.

Lemma user_rating_count_reads_amount_witness :
  get_user_rating_count Z
    (html [Tag "span" [("itemprop", "ratingCount")] [NavigableString "652,341"]])
  = Ok (VInt 652341).
Proof.
  eapply (user_rating_count_reads_amount Z); [cbv; reflexivity|reflexivity].
Defined.


Lemma take_app_exact a : forall b, take (String.length a) (a ++ b) = a.
Proof. induction a as [|c a IH]; intros b; cbn; [now destruct b|now rewrite IH]. Qed.

Lemma drop_short n : forall s, String.length s <= n -> drop n s = "".
Proof.
  induction n as [|n IH]; intros [|c r]; cbn; try reflexivity; try lia.
  intros H. apply IH. lia.
Qed.

(** ** Other currencies *)

(** [fx_to_dollars_int] takes the first three characters for the currency
    and reads the rest as the amount: a three-character code followed by a
    number is passed to the converter with "USD" and 10 July 2020, and what
    the converter gives is returned; a text of three characters or fewer has
    no amount, and ValueError is raised without the converter being
    asked. *)
Theorem fx_splits_after_three_characters (pyfloat : Type)
    (convert : string -> string -> Z -> datetime -> Result pyfloat) :
  (forall code n, String.length code = 3 ->
     fx_to_dollars_int convert (code ++ str n)
     = convert code "USD" n (datetime_ymd 2020 7 10)) /\
  (forall budget, String.length budget <= 3 ->
     fx_to_dollars_int convert budget = Raise ValueError).
Proof.
  split.
  - intros code n H. unfold fx_to_dollars_int. rewrite <- H.
    now rewrite drop_app, take_app_exact, int_str.
  - intros budget H. unfold fx_to_dollars_int. now rewrite drop_short.
Qed.

Lemma fx_splits_after_three_characters_witness :
  fx_to_dollars_int fixed_rate ("JPY" ++ str 500000000) = Ok 4672897%Z /\
  fx_to_dollars_int fixed_rate "JPY" = Raise ValueError.
Proof.
  split.
  - exact (proj1 (fx_splits_after_three_characters Z fixed_rate) "JPY" 500000000%Z eq_refl).
  - apply (proj2 (fx_splits_after_three_characters Z fixed_rate) "JPY"). cbn. lia.
Defined.

(** ** The awards, again *)

Lemma int_digits_nonneg s : forall acc b n,
  int_digits acc b s = Some n -> (0 <= acc)%Z -> (0 <= n)%Z.
Proof.
  induction s as [|c r IH]; intros acc b n; cbn [int_digits].
  - destruct b; [|discriminate]. intros [= <-]. trivial.
  - destruct (is_ascii_digit c).
    + intros H Ha. apply IH in H; [exact H|lia].
    + destruct ((c =? "_")%char && b); [|discriminate].
      destruct r as [|d r']; [discriminate|].
      destruct (is_ascii_digit d); [|discriminate]. apply IH.
Qed.

Lemma digit_is_no_sign c :
  is_digit_char c = true -> (c =? "-")%char = false /\ (c =? "+")%char = false.
Proof. destruct c as [[] [] [] [] [] [] [] []]; try discriminate; now split. Qed.

(** A text for which [isdigit] holds is read by [int], if at all, as a
    number that is not negative. *)
Lemma isdigit_int_nonneg token n :
  isdigit token = true -> int token = Ok n -> (0 <= n)%Z.
Proof.
  destruct token as [|c r]; [discriminate|]. unfold isdigit. intros D.
  rewrite int_sign, int_strip_not_space
    by (revert D; apply forallb_str_impl, digit_not_space).
  cbn [forallb_str] in D. apply andb_true_iff in D as [Dc _].
  destruct (digit_is_no_sign c Dc) as [-> ->].
  destruct (int_digits 0 false (String c r)) eqn:E; [|discriminate].
  intros [= <-]. eapply int_digits_nonneg; [exact E|lia].
Qed.

Lemma return_first_isdigit_value (pyfloat : Type) tokens otherwise (v : Value pyfloat) :
  return_first_isdigit pyfloat tokens otherwise = Ok v ->
  otherwise = Ok v \/ exists n, v = VInt n /\ (0 <= n)%Z.
Proof.
  unfold return_first_isdigit, first_isdigit.
  destruct (List.find isdigit tokens) as [token|] eqn:F; [|now left].
  apply find_some in F as [_ F].
  destruct (int token) as [n|] eqn:I; cbn [bind]; [|discriminate].
  intros [= <-]. right. exists n. split; [reflexivity|].
  eapply isdigit_int_nonneg; eassumption.
Qed.

(** What [get_oscar_wins] and [get_non_oscar_wins] return is None or an
    integer that is not negative. *)
Theorem wins_are_not_negative (pyfloat : Type) soup (v : Value pyfloat) :
  (get_oscar_wins pyfloat soup = Ok v ->
   v = VNone \/ exists n, v = VInt n /\ (0 <= n)%Z) /\
  (get_non_oscar_wins pyfloat soup = Ok v ->
   v = VNone \/ exists n, v = VInt n /\ (0 <= n)%Z).
Proof.
  split.
  - unfold get_oscar_wins.
    destruct (find soup _) as [blurb|]; [|intros [= <-]; now left].
    destruct (contains "Won" _); [|intros [= <-]; now left].
    intros H. apply return_first_isdigit_value in H as [[= <-]|H]; [now left|now right].
  - unfold get_non_oscar_wins.
    destruct (find soup _) as [blurb|]; [|intros [= <-]; now left].
    assert (Own : forall w : Value pyfloat,
              (if contains "win" (strip (text (node blurb)))
               then return_first_isdigit pyfloat (split (strip (text (node blurb)))) (Ok VNone)
               else Ok VNone) = Ok w ->
              w = VNone \/ exists n, w = VInt n /\ (0 <= n)%Z).
    { intros w. destruct (contains "win" _); [|intros [= <-]; now left].
      intros H. apply return_first_isdigit_value in H as [[= <-]|H]; [now left|now right]. }
    destruct (contains "Oscar" _); [|apply Own].
    destruct (findNextSibling blurb) as [sibling|]; [|apply Own].
    destruct (contains "win" (strip (text sibling))); [|apply Own].
    intros H. apply return_first_isdigit_value in H as [H|H]; [now apply Own|now right].
Qed.

Lemma wins_are_not_negative_witness :
  get_oscar_wins Z oscar_winner = Ok (VInt 2) /\
  get_non_oscar_wins Z oscar_winner = Ok (VInt 5) /\
  (@VInt Z 2 = VNone \/ exists n, @VInt Z 2 = VInt n /\ (0 <= n)%Z) /\
  (@VInt Z 5 = VNone \/ exists n, @VInt Z 5 = VInt n /\ (0 <= n)%Z).
Proof.
  split; [reflexivity|]. split; [reflexivity|]. split.
  - exact (proj1 (wins_are_not_negative Z oscar_winner (VInt 2)) eq_refl).
  - exact (proj2 (wins_are_not_negative Z oscar_winner (VInt 5)) eq_refl).
Defined.

(** ** The title and the metascore *)

Lemma re_sub_keep c a : forall s,
  forallb_str (fun x => negb (x =? c)%char) a = true ->
  re_sub_dotplus c false (a ++ s) = a ++ re_sub_dotplus c false s.
Proof.
  induction a as [|x a IH]; intros s; cbn [append forallb_str]; [reflexivity|].
  intros E. apply andb_true_iff in E as [E1 E2].
  cbn [re_sub_dotplus andb]. apply negb_true_iff in E1. rewrite E1. cbn [andb].
  now rewrite IH.
Qed.

Lemma re_sub_drop c d :
  forallb_str not_newline d = true -> re_sub_dotplus c true d = "".
Proof.
  induction d as [|x d IH]; cbn [forallb_str re_sub_dotplus]; [reflexivity|].
  intros E. apply andb_true_iff in E as [E1 E2].
  unfold not_newline in E1. rewrite E1. cbn [andb]. now apply IH.
Qed.

Lemma re_sub_match c y rest :
  not_newline y = true ->
  re_sub_dotplus c false (String c (String y rest))
  = re_sub_dotplus c true (String y rest).
Proof.
  unfold not_newline. intros H. simpl. now rewrite Ascii.eqb_refl, H.
Qed.

(** A match of [c.+]: [c] and the rest of the line are dropped. *)
Lemma re_sub_line c rest :
  rest <> "" -> forallb_str not_newline rest = true ->
  re_sub_dotplus c false (String c rest) = "".
Proof.
  intros N E. destruct rest as [|y rest]; [congruence|].
  pose proof E as E'. cbn [forallb_str] in E'. apply andb_true_iff in E' as [E1 _].
  rewrite re_sub_match by assumption. now apply re_sub_drop.
Qed.

(** The title is the heading up to its first non-breaking space, when what
    follows that space on the line is not empty; a heading without
    non-breaking space is the title as it is. *)
Theorem title_cut_at_non_breaking_space (pyfloat : Type) soup h1 title rest :
  find soup (named "h1") = Some h1 ->
  forallb_str not_nbsp title = true ->
  forallb_str not_newline rest = true ->
  (strip (text (node h1)) = title ->
   get_title pyfloat soup = Ok (VStr title)) /\
  (strip (text (node h1)) = title ++ String nbsp rest -> rest <> "" ->
   get_title pyfloat soup = Ok (VStr title)).
Proof.
  intros Hf Ht Hr. unfold get_title, clean_title. rewrite Hf. split.
  - intros ->. rewrite <- (append_nil_r title) at 1.
    now rewrite re_sub_keep, append_nil_r by exact Ht.
  - intros -> N. rewrite re_sub_keep by exact Ht.
    now rewrite re_sub_line, append_nil_r by assumption.
Qed.

Lemma title_cut_at_non_breaking_space_witness :
  get_title Z (title_page ("Spirited Away" ++ String nbsp "(2001)" ++ " "))
    = Ok (VStr "Spirited Away") /\
  get_title Z (title_page " Akira ") = Ok (VStr "Akira").
Proof.
  split.
  - refine (proj2 (title_cut_at_non_breaking_space Z
                     (title_page ("Spirited Away" ++ String nbsp "(2001)" ++ " ")) _
                     "Spirited Away" "(2001)" _ eq_refl eq_refl) _ _);
      [cbv; reflexivity|reflexivity|discriminate].
  - refine (proj1 (title_cut_at_non_breaking_space Z (title_page " Akira ") _
                     "Akira" "" _ eq_refl eq_refl) _);
      [cbv; reflexivity|reflexivity].
Defined.


(** ** The budget in dollars *)

Lemma forallb_str_keep_chars (p q : ascii -> bool) s :
  forallb_str p s = true -> forallb_str p (keep_chars q s) = true.
Proof.
  induction s as [|c r IH]; cbn; [reflexivity|].
  intros E. apply andb_true_iff in E as [E1 E2].
  destruct (q c); cbn; [rewrite E1|]; now apply IH.
Qed.

Lemma contains_first c s : contains (String c "") (String c s) = true.
Proof.
  cbn [contains prefix]. destruct (ascii_dec c c); [|congruence].
  now destruct s.
Qed.

Lemma dollars_of_str n : dollars_to_int ("$" ++ str n) = Ok n.
Proof.
  unfold dollars_to_int.
  rewrite (replace_char_with_nothing "$"%char), keep_chars_app.
  change (keep_chars (fun x => negb (x =? "$")%char) "$") with "".
  cbn [append]. rewrite keep_chars_all; [apply int_str|].
  apply forallb_str_impl with (2 := str_chars n).
  intros c. destruct c as [[] [] [] [] [] [] [] []]; try discriminate; reflexivity.
Qed.

Lemma replace_budget_label_in_tail tail :
  decoration tail -> replace "Budget:" "" tail = tail.
Proof.
  intros [->|(deco & -> & _ & C & _)]; [reflexivity|].
  rewrite replace_cons by discriminate.
  change (prefix "Budget:" (String nl deco)) with false. cbv iota.
  now rewrite replace_absent by (discriminate || assumption).
Qed.

Lemma re_sub_tail tail :
  decoration tail -> re_sub_dotplus nl false (keep_chars not_comma tail) = "".
Proof.
  intros [->|(deco & -> & L & _ & N)]; [reflexivity|].
  cbn [keep_chars]. change (not_comma nl) with true. cbv iota.
  apply re_sub_line; [exact N|now apply forallb_str_keep_chars].
Qed.

(** What [clean_budget] makes of the label, a dollar sign, an amount with
    commas and a decoration: the dollar sign and the digits. *)
Lemma clean_budget_dollars amount tail :
  forallb_str amount_char amount = true ->
  decoration tail ->
  clean_budget ("Budget:$" ++ amount ++ tail) = "$" ++ keep_chars not_comma amount.
Proof.
  intros A D. unfold clean_budget, remove_commas.
  change ("Budget:$" ++ amount ++ tail) with ("Budget:" ++ (("$" ++ amount) ++ tail)).
  assert (P : forallb_str (fun c => negb (c =? "B")%char) ("$" ++ amount) = true).
  { cbn [append forallb_str]. change (negb ("$" =? "B")%char) with true. cbn [andb].
    revert A. apply forallb_str_impl. intros c E. now apply amount_char_plain in E. }
  rewrite replace_occurrence by discriminate. cbn [append].
  change (String "$" (amount ++ tail)) with (("$" ++ amount) ++ tail).
  rewrite replace_head_absent by exact P.
  rewrite replace_budget_label_in_tail by exact D.
  rewrite (replace_char_with_nothing ","%char).
  change (fun x => negb (x =? ",")%char) with not_comma.
  rewrite keep_chars_app, re_sub_keep.
  - rewrite re_sub_tail by exact D. rewrite append_nil_r, keep_chars_app. reflexivity.
  - apply forallb_str_keep_chars. cbn [append forallb_str].
    change (negb ("$" =? nl)%char) with true. cbn [andb].
    revert A. apply forallb_str_impl. intros c E.
    apply amount_char_plain in E as (_ & _ & _ & E). exact E.
Qed.

(** When the budget block reads "Budget:", a dollar sign and a number
    written with commas, followed by nothing or by a decoration on a line of
    its own, the extractor returns the number, and the converter is not
    asked. *)
Theorem budget_reads_dollar_amount (pyfloat : Type)
    (convert : string -> string -> Z -> datetime -> Result pyfloat)
    soup label parent block amount tail n :
  find soup (with_text "Budget:") = Some label ->
  findParent label = Some parent ->
  findParent parent = Some block ->
  strip (text (node block)) = "Budget:$" ++ amount ++ tail ->
  keep_chars not_comma amount = str n ->
  decoration tail ->
  get_budget convert soup = Ok (VInt n).
Proof.
  intros Hf Hp Hb Ht Hn Hd.
  rewrite (get_budget_of_block _ _ _ _ _ _ Hf Hp Hb), Ht. cbv zeta.
  rewrite clean_budget_dollars, Hn by (assumption || eapply amount_chars, Hn).
  change ("$" ++ str n) with (String "$" (str n)) at 1.
  now rewrite contains_first, dollars_of_str.
Qed.

Lemma budget_reads_dollar_amount_witness :
  get_budget fixed_rate
    (budget_page ("$19,000,000" ++ String nl "            (estimated)" ++ String nl "    "))
  = Ok (VInt 19000000) /\
  get_budget fixed_rate (budget_page "$19,000,000") = Ok (VInt 19000000).
Proof.
  split.
  - refine (budget_reads_dollar_amount Z fixed_rate
              (budget_page ("$19,000,000" ++ String nl "            (estimated)"
                                          ++ String nl "    "))
              _ _ _ "19,000,000" (String nl "            (estimated)") 19000000
              _ _ _ _ eq_refl _);
      [cbv; reflexivity|reflexivity|reflexivity|reflexivity|].
    right. exists "            (estimated)". repeat split; discriminate.
  - refine (budget_reads_dollar_amount Z fixed_rate (budget_page "$19,000,000")
              _ _ _ "19,000,000" "" 19000000 _ _ _ _ eq_refl _);
      [cbv; reflexivity|reflexivity|reflexivity|reflexivity|now left].
Defined.

(** ** The runtime and the metascore read back *)

(** A first "Runtime:" marker followed by an element whose text starts with
    a number gives that number; a metascore element that holds a number,
    blanks around it or not, gives that number. *)
Theorem runtime_and_metascore_read_numbers (pyfloat : Type) soup n :
  (forall skipped element later next rest,
     find_all soup (named "h4") = (skipped ++ element :: later)%list ->
     Forall (fun e => in_contents "Runtime:" e = false) skipped ->
     in_contents "Runtime:" element = true ->
     findNext element = Some next ->
     split (text next) = str n :: rest ->
     get_runtime pyfloat soup = Ok (VInt n)) /\
  (forall score,
     find soup (fun n => named "div" n && class_ "metacriticScore" n) = Some score ->
     strip (text (node score)) = str n ->
     get_metascore pyfloat soup = Ok (VInt n)).
Proof.
  split.
  - intros skipped element later next rest Hf Hs He Hn Ht. unfold get_runtime.
    rewrite Hf, get_runtime_loop_skip by assumption.
    cbn [get_runtime_loop]. rewrite He, Hn. cbn [attr_of bind].
    rewrite Ht, subscript_head. cbn [bind]. now rewrite int_str.
  - intros score Hf Ht. unfold get_metascore. now rewrite Hf, Ht, int_str.
Qed.

Lemma runtime_and_metascore_read_numbers_witness :
  get_runtime Z
    (html [runtime_block "125 min";
           Tag "div" [("class", "metacriticScore score_favorable")]
             [Tag "span" [] [NavigableString " 96 "]]])
  = Ok (VInt 125) /\
  get_metascore Z
    (html [runtime_block "125 min";
           Tag "div" [("class", "metacriticScore score_favorable")]
             [Tag "span" [] [NavigableString " 96 "]]])
  = Ok (VInt 96).
Proof.
  split.
  - refine (proj1 (runtime_and_metascore_read_numbers Z _ 125)
              [] _ _ _ ["min"] _ _ _ _ _);
      [cbv; reflexivity|constructor|reflexivity|cbv; reflexivity|reflexivity].
  - refine (proj2 (runtime_and_metascore_read_numbers Z _ 96) _ _ _);
      [cbv; reflexivity|reflexivity].
Defined.



(** ** The awards *)

(** [int] passes over its own blanks only: a non-breaking space around the
    number is ignored, a separator that [strip] would remove is not. *)
Example int_blanks :
  int (String nbsp " 96 ") = Ok 96%Z /\
  int (String "028" "5") = Raise ValueError /\
  strip (String "028" "5") = "5".
Proof. repeat split. Qed.

Lemma int_digits_decimal s : forall acc b,
  forallb_str is_ascii_digit s = true ->
  s <> "" \/ b = true ->
  int_digits acc b s = Some (decimal_from acc s).
Proof.
  induction s as [|c r IH]; intros acc b D H.
  - destruct H as [H| ->]; [congruence|reflexivity].
  - cbn [forallb_str] in D. apply andb_true_iff in D as [Dc Dr].
    rewrite int_digits_step by assumption. cbn [decimal_from].
    apply IH; [assumption|now right].
Qed.

Lemma decimal_isdigit token : decimal token = true -> isdigit token = true.
Proof.
  destruct token as [|c r]; [discriminate|]. unfold decimal, isdigit.
  apply forallb_str_impl, ascii_digit_is_digit.
Qed.

(** A token of the digits 0 to 9 is read by [int] as the number it
    writes. *)
Lemma int_decimal token : decimal token = true -> int token = Ok (decimal_value token).
Proof.
  destruct token as [|c r]; [discriminate|]. unfold decimal. intros A.
  rewrite int_sign, int_strip_not_space.
  - pose proof A as A'. cbn [forallb_str] in A'.
    apply andb_true_iff in A' as [Dc _].
    destruct (digit_is_no_sign c (ascii_digit_is_digit c Dc)) as [-> ->].
    unfold decimal_value.
    rewrite (int_digits_decimal (String c r) 0 false A); [reflexivity|].
    left. discriminate.
  - revert A. apply forallb_str_impl.
    intros d E. now apply digit_not_space, ascii_digit_is_digit.
Qed.

(** Where every token [isdigit] accepts is written with the digits 0 to 9,
    the loop stops at the first purely-numeric token. *)
Lemma find_isdigit_decimal tokens :
  forallb (fun token => implb (isdigit token) (decimal token)) tokens = true ->
  List.find isdigit tokens = List.find decimal tokens.
Proof.
  induction tokens as [|t ts IH]; cbn [List.find forallb]; [reflexivity|].
  intros H. apply andb_true_iff in H as [H1 H2].
  destruct (isdigit t) eqn:I; cbn [implb] in H1.
  - now rewrite H1.
  - destruct (decimal t) eqn:D; [apply decimal_isdigit in D; congruence|].
    now apply IH.
Qed.

Lemma return_first_isdigit_decimal (pyfloat : Type) raw_text
    (otherwise : Result (Value pyfloat)) :
  digits_are_decimal raw_text = true ->
  return_first_isdigit pyfloat (split (strip raw_text)) otherwise =
  match first_number raw_text with
  | Some wins => Ok (VInt wins)
  | None => otherwise
  end.
Proof.
  intros H. unfold return_first_isdigit, first_isdigit, first_number.
  rewrite (find_isdigit_decimal _ H).
  destruct (List.find decimal _) as [token|] eqn:F; cbn [option_map]; [|reflexivity].
  apply find_some in F as [_ F]. now rewrite (int_decimal _ F).
Qed.

(** A token that is a superscript two passes [isdigit] and is not read by
    [int]: the extractor raises ValueError. Such texts are the ones
    [digits_are_decimal] leaves out. *)
Example superscript_token_raises :
  get_non_oscar_wins Z (html [awards_block (String "178" " wins") []])
    = Raise ValueError /\
  digits_are_decimal (String "178" " wins") = false.
Proof. split; reflexivity. Qed.

(** C5, as the specification words it, fails: the summary mentions Oscar
    and its sibling, a link, contains "win" but no number; the extractor
    then returns the first number of the summary itself, 1, which is no
    token of the sibling's text, where the specification's words give
    None. *)
Lemma sibling_without_number_falls_through :
  ~ non_oscar_wins_as_specified Z oscar_winner_with_link.
Proof.
  intros H.
  assert (F : exists blurb,
             find oscar_winner_with_link
               (fun n => named "span" n && class_ "awards-blurb" n) = Some blurb)
    by (eexists; reflexivity).
  destruct F as [blurb F]. specialize (H blurb F).
  vm_compute in F. injection F as <-. vm_compute in H. discriminate H.
Qed.

(** C5, amended. On a page whose awards-summary text and following sibling's
    text write every token that [str.isdigit] accepts with the digits 0 to
    9: if the awards-summary text mentions "Oscar" and a following sibling
    element exists whose text contains "win" and has a purely-numeric
    whitespace token, the extractor returns the first such token of the
    sibling's text as an integer; otherwise, that is also when such a
    sibling has no numeric token, if the summary's own text contains "win"
    and has a purely-numeric token it returns the first such token of that
    text as an integer; otherwise None. A page without awards summary gives
    None. "Won 2 Oscars. Another 5 wins." with the sibling "5 wins" gives 5,
    "12 wins & 3 nominations" gives 12. *)
Theorem non_oscar_wins_precedence (pyfloat : Type) soup :
  (forall blurb,
     find soup (fun n => named "span" n && class_ "awards-blurb" n) = Some blurb ->
     digits_are_decimal (text (node blurb)) = true ->
     (forall sibling,
        findNextSibling blurb = Some sibling ->
        digits_are_decimal (text sibling) = true) ->
     get_non_oscar_wins pyfloat soup =
     Ok (non_oscar_wins_falling_through
           (text (node blurb)) (option_map text (findNextSibling blurb)))) /\
  (find soup (fun n => named "span" n && class_ "awards-blurb" n) = None ->
   get_non_oscar_wins pyfloat soup = Ok VNone) /\
  get_non_oscar_wins pyfloat oscar_winner = Ok (VInt 5) /\
  get_non_oscar_wins pyfloat award_winner = Ok (VInt 12).
Proof.
  split; [|split; [|split; reflexivity]].
  - intros blurb F Hs Hn. unfold get_non_oscar_wins. rewrite F. cbv zeta.
    assert (Own : (if contains "win" (strip (text (node blurb)))
                   then return_first_isdigit pyfloat
                          (split (strip (text (node blurb)))) (Ok VNone)
                   else Ok VNone)
                  = Ok (own_wins (text (node blurb)))).
    { unfold own_wins. destruct (contains "win" _); [|reflexivity].
      rewrite return_first_isdigit_decimal by assumption.
      now destruct (first_number _). }
    rewrite Own. unfold non_oscar_wins_falling_through.
    destruct (findNextSibling blurb) as [sibling|]; cbn [option_map].
    + destruct (contains "Oscar" (text (node blurb))); cbn [andb]; [|reflexivity].
      destruct (contains "win" (strip (text sibling))); [|reflexivity].
      rewrite return_first_isdigit_decimal by (now apply Hn).
      now destruct (first_number (text sibling)).
    + now destruct (contains "Oscar" (text (node blurb))).
  - intros F. unfold get_non_oscar_wins. now rewrite F.
Qed.

Lemma non_oscar_wins_precedence_witness :
  get_non_oscar_wins Z oscar_winner_with_link = Ok (VInt 1) /\
  get_non_oscar_wins Z oscar_winner = Ok (VInt 5).
Proof.
  split.
  - assert (F : exists blurb,
               find oscar_winner_with_link
                 (fun n => named "span" n && class_ "awards-blurb" n) = Some blurb)
      by (eexists; reflexivity).
    destruct F as [blurb F].
    pose proof (proj1 (non_oscar_wins_precedence Z oscar_winner_with_link) blurb F) as H.
    vm_compute in F. injection F as <-.
    rewrite H; [reflexivity|reflexivity|].
    intros sibling [= <-]. reflexivity.
  - assert (F : exists blurb,
               find oscar_winner
                 (fun n => named "span" n && class_ "awards-blurb" n) = Some blurb)
      by (eexists; reflexivity).
    destruct F as [blurb F].
    pose proof (proj1 (non_oscar_wins_precedence Z oscar_winner) blurb F) as H.
    vm_compute in F. injection F as <-.
    rewrite H; [reflexivity|reflexivity|].
    intros sibling [= <-]. reflexivity.
Defined.
